(** * ICS-27 interchain accounts, host keeper: packet relay

    A shallow embedding of
    [modules/apps/27-interchain-accounts/host/keeper/relay.go]
    ([OnRecvPacket], [executeTx], [authenticateTx], [executeMsg]) and the
    properties of its packet execution pipeline.

    The Go code works on an [sdk.Context] that holds references to a
    multistore and to an event manager.  Both are modelled as cells of a
    heap, so that the branch made by [CacheContext] is a cell of its own,
    distinct from the cell of the ambient context.  Every call the keeper
    makes to a collaborator is recorded in a trace, which is what lets the
    file state that some call is never made.

    The calls to the [logger] package write to a log file only; they are
    left out, except that the arguments they are given are still evaluated
    (two of them index a slice, one calls [msg.GetSigners()], which
    panics on a signer address that does not decode). *)

From Stdlib Require Import ZArith String List Lia.
From stdpp Require Import base list strings gmap.

Local Open Scope string_scope.
Local Open Scope list_scope.

(** ** Byte strings *)

Definition bytes := list Byte.byte.

(** ** Errors (cosmos-sdk [types/errors]) *)

Module sdkerrors.

(** A Go [error] value: a sentinel declared with [sdkerrors.Register]
    (named here by its qualified Go name), an error made by a
    collaborator, or an error wrapped with a description. *)
Inductive error : Type :=
| Registered (name : string)
| Plain (text : string)
| Wrapped (parent : error) (description : string).

(** [sdkerrors.Wrap(err, description)], on a non-nil [err]. *)
Definition Wrap (err : error) (description : string) : error :=
  Wrapped err description.

(** [sdkerrors.Wrapf(err, format, args...)]; the caller passes the
    formatted text. *)
Definition Wrapf (err : error) (formatted : string) : error :=
  Wrap err formatted.


Definition ErrUnauthorized : error := Registered "sdkerrors.ErrUnauthorized".

End sdkerrors.

Abbreviation error := sdkerrors.error.

(** ** cosmos-sdk types *)

Module sdk.

(** An account address, kept as the text [String()] renders; relay.go
    reads nothing else of it. *)
Record AccAddress : Type := { AccAddress_String : string }.

(** [sdk.Msg] is an interface; a message is the record of what its
    methods return.  [MsgTypeURL] is [sdk.MsgTypeURL(msg)], [Body]
    stands for the remaining fields of the concrete message.
    [GetSigners] does not always return: the messages of the cosmos-sdk
    decode their signer addresses in it and panic on an address that
    does not decode, which the bytes of a packet can hold.  It is the
    signers returned ([inr]) or the value of the panic ([inl]). *)
Record Msg : Type := {
  MsgTypeURL : string;
  GetSigners : string + list AccAddress;
  ValidateBasic : option error;
  Body : string
}.

Definition Event := string.

(** [sdk.Result]: what a handler returns on success. *)
Record Result : Type := {
  Result_Data : bytes;
  GetEvents : list Event
}.

Record MsgData : Type := {
  MsgType : string;
  MsgData_Data : bytes
}.

(** [sdk.TxMsgData]; [Data] is a slice of pointers, [None] is nil. *)
Record TxMsgData : Type := { Data : list (option MsgData) }.

(** The contents of a multistore: keys to values. *)
Abbreviation MultiStore := (gmap string string).

(** [sdk.Context] is passed by value and holds references: the address
    of its multistore and the address of its event manager. *)
Record Context : Type := {
  MultiStoreRef : nat;
  EventManagerRef : nat
}.

(** [sdk.Handler], as reached through the message router.  A handler
    gets the context it is called with and reaches the ledger through
    the multistore of that context only; it makes an event manager of
    its own and returns the events in its result (NOTE in [executeMsg]).
    A failing handler may have written to the store before it failed. *)
Definition Handler : Type := MultiStore -> Msg -> MultiStore * (error + Result).

End sdk.

(** ** 04-channel types *)

Module channeltypes.

Record Packet : Type := {
  SourcePort : string;
  DestinationPort : string;
  DestinationChannel : string;
  GetData : bytes
}.

Record Channel : Type := { ConnectionHops : list string }.

Definition ErrChannelNotFound : error :=
  sdkerrors.Registered "channeltypes.ErrChannelNotFound".

End channeltypes.

(** ** 27-interchain-accounts types *)

Module icatypes.

(** The enum [icatypes.Type] is an int32 on the wire. *)
Definition EXECUTE_TX : Z := 1.

Record InterchainAccountPacketData : Type := {
  Type_ : Z;
  Data : bytes;
  Memo : string
}.

Definition ErrUnknownDataType : error :=
  sdkerrors.Registered "icatypes.ErrUnknownDataType".
Definition ErrInvalidRoute : error :=
  sdkerrors.Registered "icatypes.ErrInvalidRoute".
Definition ErrInterchainAccountNotFound : error :=
  sdkerrors.Registered "icatypes.ErrInterchainAccountNotFound".

End icatypes.

(** ** 27-interchain-accounts host types *)

Module types.

(** Modelled from the spec: the wildcard entry of the allow-list, a
    constant of [host/types]; the comment in [authenticateTx] writes it
    as a star. *)
Definition AllowAllHostMsgs : string := "*".

(** Modelled from the spec: [types.ContainsMsgType] of the package
    [host/types], which is not among the source files.  The
    specification (4.2, step 3a) has the type check fail exactly when
    the allow-list is not the wildcard and does not contain the type
    identifier of the operation; the data model reads the wildcard as a
    list made of the single wildcard entry. *)
Definition ContainsMsgType (allowMsgs : list string) (msg : sdk.Msg) : bool :=
  match allowMsgs with
  | [v] => String.eqb v AllowAllHostMsgs
  | _ => false
  end
  || existsb (fun v => String.eqb v (sdk.MsgTypeURL msg)) allowMsgs.

End types.

(** ** The world the keeper runs in *)

(** A call made to a collaborator. *)
Inductive Call : Type :=
| CallUnmarshalJSON (bz : bytes)
| CallDeserializeCosmosTx (bz : bytes)
| CallGetChannel (portID channelID : string)
| CallGetInterchainAccountAddress (connectionID portID : string)
| CallGetAllowMessages
| CallContainsMsgType (msg : sdk.Msg)
| CallGetSigners (msg : sdk.Msg)
| CallCacheContext (ctx : sdk.Context)
| CallValidateBasic (msg : sdk.Msg)
| CallRoute (msg : sdk.Msg)
| CallHandler (ctx : sdk.Context) (msg : sdk.Msg)
| CallEmitEvents (eventManager : nat) (events : list sdk.Event)
| CallWrite (cms parent : nat)
| CallMarshal (txMsgData : sdk.TxMsgData).

(** The heap of multistores, the heap of event managers (a manager is the
    list of the events emitted on it, oldest first) and the trace of calls
    (oldest first).  A reference is an index in its heap. *)
Record World : Type := {
  stores : list sdk.MultiStore;
  managers : list (list sdk.Event);
  trace : list Call
}.

(** How a Go call ends: it returns a value, it returns a non-nil error, or
    it panics. *)
Inductive outcome (A : Type) : Type :=
| Ok (a : A)
| Err (err : error)
| Panic (reason : string).

Arguments Ok {A} a.
Arguments Err {A} err.
Arguments Panic {A} reason.

(** A computation of the keeper: it runs in a world and leaves a world,
    also when it fails. *)
Definition M (A : Type) : Type := World -> outcome A * World.

Definition ret {A : Type} (a : A) : M A := fun w => (Ok a, w).

Definition bind {A B : Type} (m : M A) (f : A -> M B) : M B :=
  fun w =>
    match m w with
    | (Ok a, w') => f a w'
    | (Err err, w') => (Err err, w')
    | (Panic reason, w') => (Panic reason, w')
    end.

#[global] Instance M_ret : MRet M := @ret.
#[global] Instance M_bind : MBind M := fun A B f m => bind m f.

(** [return nil, err] *)
Definition fail {A : Type} (err : error) : M A := fun w => (Err err, w).

Definition panic {A : Type} (reason : string) : M A := fun w => (Panic reason, w).

(** [v, err := f(...); if err != nil { return nil, err }] *)
Definition try {A : Type} (r : error + A) : M A :=
  match r with
  | inl err => fail err
  | inr v => ret v
  end.

(** [l[i]]: Go panics when the index is out of range. *)
Definition index {A : Type} (l : list A) (i : nat) : M A :=
  match l !! i with
  | Some x => ret x
  | None => panic "index out of range"
  end.

Definition gets {A : Type} (f : World -> A) : M A := fun w => (Ok (f w), w).

Definition modify (f : World -> World) : M unit := fun w => (Ok tt, f w).

Definition call (c : Call) : M unit :=
  modify (fun w => {| stores := stores w; managers := managers w;
                      trace := trace w ++ [c] |}).

(** The contents of the multistore at a reference. *)
Definition getStore (ref : nat) : M sdk.MultiStore :=
  gets (fun w => stores w !!! ref).

Definition setStore (ref : nat) (s : sdk.MultiStore) : M unit :=
  modify (fun w => {| stores := <[ref := s]> (stores w);
                      managers := managers w; trace := trace w |}).

(** A new multistore with the contents [s]; its reference is returned. *)
Definition newStore (s : sdk.MultiStore) : M nat :=
  ref ← gets (fun w => length (stores w));
  modify (fun w => {| stores := stores w ++ [s];
                      managers := managers w; trace := trace w |});;
  ret ref.

(** [sdk.NewEventManager()]: a new manager with no event. *)
Definition NewEventManager : M nat :=
  ref ← gets (fun w => length (managers w));
  modify (fun w => {| stores := stores w;
                      managers := managers w ++ [[]]; trace := trace w |});;
  ret ref.

(** [ctx.EventManager()] *)
Definition EventManager (ctx : sdk.Context) : nat := sdk.EventManagerRef ctx.

(** [em.Events()] *)
Definition Events (em : nat) : M (list sdk.Event) :=
  gets (fun w => managers w !!! em).

(** [em.EmitEvents(events)]: the events are appended to the manager. *)
Definition EmitEvents (em : nat) (events : list sdk.Event) : M unit :=
  call (CallEmitEvents em events);;
  modify (fun w => {| stores := stores w;
                      managers := <[em := (managers w !!! em) ++ events]> (managers w);
                      trace := trace w |}).

(** [cms.Write()]: the writes buffered in the cache multistore [cms] go
    to its parent.  The batch is the only writer while the branch lives,
    so the contents of the branch are those of the parent when it was
    made, changed by what was written through it; [Write] installs them
    in the parent. *)
Definition Write (cms parent : nat) : M unit :=
  call (CallWrite cms parent);;
  s ← getStore cms;
  setStore parent s.

(** [ctx.CacheContext()] of the cosmos-sdk: a context on a fresh cache
    multistore branched from the multistore of [ctx], with a fresh, empty
    event manager, together with the [Write] of that cache multistore. *)
Definition CacheContext (ctx : sdk.Context) : M (sdk.Context * M unit) :=
  call (CallCacheContext ctx);;
  s ← getStore (sdk.MultiStoreRef ctx);
  cms ← newStore s;
  em ← NewEventManager;
  ret ({| sdk.MultiStoreRef := cms; sdk.EventManagerRef := em |},
       Write cms (sdk.MultiStoreRef ctx)).

(** [msg.ValidateBasic()] *)
Definition ValidateBasic (msg : sdk.Msg) : M unit :=
  call (CallValidateBasic msg);;
  match sdk.ValidateBasic msg with
  | Some err => fail err
  | None => ret tt
  end.

(** [handler(ctx, msg)] *)
Definition invoke (handler : sdk.Handler) (ctx : sdk.Context) (msg : sdk.Msg)
  : M sdk.Result :=
  call (CallHandler ctx msg);;
  s ← getStore (sdk.MultiStoreRef ctx);
  let '(s', r) := handler s msg in
  setStore (sdk.MultiStoreRef ctx) s';;
  try r.

(** [types.ContainsMsgType(allowMsgs, msg)] *)
Definition ContainsMsgType (allowMsgs : list string) (msg : sdk.Msg) : M bool :=
  call (CallContainsMsgType msg);;
  ret (types.ContainsMsgType allowMsgs msg).

(** [msg.GetSigners()] *)
Definition GetSigners (msg : sdk.Msg) : M (list sdk.AccAddress) :=
  call (CallGetSigners msg);;
  match sdk.GetSigners msg with
  | inl reason => panic reason
  | inr signers => ret signers
  end.

(** ** The keeper *)

(** The host keeper with what relay.go reaches through it or next to it,
    none of which is among the source files: the JSON codec of the
    module and the transaction codec [k.cdc], the channel keeper, the
    registry of interchain accounts and the host parameters (both read
    from the store of the context), the message router and the protobuf
    encoder. *)
Record Keeper : Type := {
  ModuleCdc_UnmarshalJSON : bytes -> error + icatypes.InterchainAccountPacketData;
  cdc_DeserializeCosmosTx : bytes -> error + list sdk.Msg;
  channelKeeper_GetChannel : sdk.MultiStore -> string -> string -> option channeltypes.Channel;
  store_GetInterchainAccountAddress : sdk.MultiStore -> string -> string -> option string;
  store_GetAllowMessages : sdk.MultiStore -> list string;
  msgRouter_Handler : sdk.Msg -> option sdk.Handler;
  proto_Marshal : sdk.TxMsgData -> error + bytes
}.

(** [icatypes.ModuleCdc.UnmarshalJSON(bz, &data)] *)
Definition UnmarshalJSON (k : Keeper) (bz : bytes)
  : M (error + icatypes.InterchainAccountPacketData) :=
  call (CallUnmarshalJSON bz);;
  ret (ModuleCdc_UnmarshalJSON k bz).

(** [icatypes.DeserializeCosmosTx(k.cdc, data)] *)
Definition DeserializeCosmosTx (k : Keeper) (data : bytes) : M (list sdk.Msg) :=
  call (CallDeserializeCosmosTx data);;
  try (cdc_DeserializeCosmosTx k data).

(** [k.channelKeeper.GetChannel(ctx, portID, channelID)] *)
Definition GetChannel (k : Keeper) (ctx : sdk.Context) (portID channelID : string)
  : M (option channeltypes.Channel) :=
  call (CallGetChannel portID channelID);;
  s ← getStore (sdk.MultiStoreRef ctx);
  ret (channelKeeper_GetChannel k s portID channelID).

(** [k.GetInterchainAccountAddress(ctx, connectionID, portID)] *)
Definition GetInterchainAccountAddress (k : Keeper) (ctx : sdk.Context)
    (connectionID portID : string) : M (option string) :=
  call (CallGetInterchainAccountAddress connectionID portID);;
  s ← getStore (sdk.MultiStoreRef ctx);
  ret (store_GetInterchainAccountAddress k s connectionID portID).

(** [k.GetAllowMessages(ctx)] *)
Definition GetAllowMessages (k : Keeper) (ctx : sdk.Context) : M (list string) :=
  call CallGetAllowMessages;;
  s ← getStore (sdk.MultiStoreRef ctx);
  ret (store_GetAllowMessages k s).

(** [k.msgRouter.Handler(msg)]; [None] is the nil handler. *)
Definition Handler (k : Keeper) (msg : sdk.Msg) : M (option sdk.Handler) :=
  call (CallRoute msg);;
  ret (msgRouter_Handler k msg).

(** [proto.Marshal(txMsgData)] *)
Definition Marshal (k : Keeper) (txMsgData : sdk.TxMsgData) : M (error + bytes) :=
  call (CallMarshal txMsgData);;
  ret (proto_Marshal k txMsgData).

(** ** relay.go *)

(** The inner loop of [authenticateTx]:
    [for _, signer := range msg.GetSigners() { ... }] *)
Fixpoint authenticateTx_signers (interchainAccountAddr : string)
    (signers : list sdk.AccAddress) : M unit :=
  match signers with
  | [] => ret tt
  | signer :: signers' =>
      if negb (String.eqb interchainAccountAddr (sdk.AccAddress_String signer))
      then fail (sdkerrors.Wrapf sdkerrors.ErrUnauthorized
                   ("unexpected signer address: expected " +:+ interchainAccountAddr
                    +:+ ", got " +:+ sdk.AccAddress_String signer))
      else authenticateTx_signers interchainAccountAddr signers'
  end.

(** The outer loop of [authenticateTx]: [for _, msg := range msgs { ... }] *)
Fixpoint authenticateTx_msgs (allowMsgs : list string) (interchainAccountAddr : string)
    (msgs : list sdk.Msg) : M unit :=
  match msgs with
  | [] => ret tt
  | msg :: msgs' =>
      allowed ← ContainsMsgType allowMsgs msg;
      if negb allowed
      then fail (sdkerrors.Wrapf sdkerrors.ErrUnauthorized
                   ("message type not allowed: " +:+ sdk.MsgTypeURL msg))
      else
        signers ← GetSigners msg;
        authenticateTx_signers interchainAccountAddr signers;;
        authenticateTx_msgs allowMsgs interchainAccountAddr msgs'
  end.

(** [authenticateTx] ensures the provided msgs contain the correct
    interchain account signer address retrieved from state using the
    provided controller port identifier. *)
Definition authenticateTx (k : Keeper) (ctx : sdk.Context) (msgs : list sdk.Msg)
    (connectionID portID : string) : M unit :=
  found ← GetInterchainAccountAddress k ctx connectionID portID;
  match found with
  | None =>
      fail (sdkerrors.Wrapf icatypes.ErrInterchainAccountNotFound
              ("failed to retrieve interchain account on port " +:+ portID))
  | Some interchainAccountAddr =>
      allowMsgs ← GetAllowMessages k ctx;
      (* logger.LogInfo("first allowed message is:", allowMsgs[0]) *)
      index allowMsgs 0;;
      authenticateTx_msgs allowMsgs interchainAccountAddr msgs
  end.

(** [executeMsg] attempts to get the message handler from the router and
    if found will then execute the message. *)
Definition executeMsg (k : Keeper) (ctx : sdk.Context) (msg : sdk.Msg) : M bytes :=
  handler ← Handler k msg;
  match handler with
  | None => fail icatypes.ErrInvalidRoute
  | Some handler =>
      res ← invoke handler ctx msg;
      EmitEvents (EventManager ctx) (sdk.GetEvents res);;
      ret (sdk.Result_Data res)
  end.

(** [txMsgData.Data[i] = v] *)
Definition setData (txMsgData : sdk.TxMsgData) (i : nat) (v : sdk.MsgData)
  : M sdk.TxMsgData :=
  if decide (i < length (sdk.Data txMsgData))
  then ret {| sdk.Data := <[i := Some v]> (sdk.Data txMsgData) |}
  else panic "index out of range".

(** The loop of [executeTx]: [for i, msg := range msgs { ... }], entered
    at index [i] with the messages that remain. *)
Fixpoint executeTx_msgs (k : Keeper) (cacheCtx : sdk.Context) (i : nat)
    (msgs : list sdk.Msg) (txMsgData : sdk.TxMsgData) : M sdk.TxMsgData :=
  match msgs with
  | [] => ret txMsgData
  | msg :: msgs' =>
      ValidateBasic msg;;
      msgResponse ← executeMsg k cacheCtx msg;
      txMsgData' ← setData txMsgData i
                     {| sdk.MsgType := sdk.MsgTypeURL msg;
                        sdk.MsgData_Data := msgResponse |};
      executeTx_msgs k cacheCtx (S i) msgs' txMsgData'
  end.

(** [executeTx] attempts to execute the provided transaction.  It begins
    by authenticating the transaction signer; the state changes are
    written only if all messages in the transaction succeed. *)
Definition executeTx (k : Keeper) (ctx : sdk.Context)
    (sourcePort destPort destChannel : string) (msgs : list sdk.Msg) : M bytes :=
  found ← GetChannel k ctx destPort destChannel;
  match found with
  | None => fail channeltypes.ErrChannelNotFound
  | Some channel =>
      connectionID ← index (channeltypes.ConnectionHops channel) 0;
      authenticateTx k ctx msgs connectionID sourcePort;;
      let txMsgData := {| sdk.Data := replicate (length msgs) None |} in
      '(cacheCtx, writeCache) ← CacheContext ctx;
      txMsgData ← executeTx_msgs k cacheCtx 0 msgs txMsgData;
      events ← Events (EventManager cacheCtx);
      EmitEvents (EventManager ctx) events;;
      writeCache;;
      txResponse ← Marshal k txMsgData;
      match txResponse with
      | inl err => fail (sdkerrors.Wrap err "failed to marshal tx data")
      | inr txResponse => ret txResponse
      end
  end.

(** [OnRecvPacket] handles a given interchain accounts packet on a
    destination host chain. *)
Definition OnRecvPacket (k : Keeper) (ctx : sdk.Context) (packet : channeltypes.Packet)
  : M bytes :=
  r ← UnmarshalJSON k (channeltypes.GetData packet);
  match r with
  | inl _ =>
      fail (sdkerrors.Wrapf icatypes.ErrUnknownDataType
              "cannot unmarshal ICS-27 interchain account packet data")
  | inr data =>
      msgs ← DeserializeCosmosTx k (icatypes.Data data);
      msg0 ← index msgs 0;
      (* logger.LogInfo("msg0 signers are:", msg0.GetSigners()) *)
      GetSigners msg0;;
      if Z.eqb (icatypes.Type_ data) icatypes.EXECUTE_TX
      then
        msgs ← DeserializeCosmosTx k (icatypes.Data data);
        txResponse ← executeTx k ctx (channeltypes.SourcePort packet)
                       (channeltypes.DestinationPort packet)
                       (channeltypes.DestinationChannel packet) msgs;
        ret txResponse
      else fail icatypes.ErrUnknownDataType
  end.

(** ** Observing a run *)

(** The world [w] after the calls [t] have been recorded and nothing else
    has changed. *)
Definition log (w : World) (t : list Call) : World :=
  {| stores := stores w; managers := managers w; trace := trace w ++ t |}.

(** A context is live in a world when its two references are allocated. *)
Definition live (ctx : sdk.Context) (w : World) : Prop :=
  sdk.MultiStoreRef ctx < length (stores w) /\
  sdk.EventManagerRef ctx < length (managers w).

(** The call opens a speculative state view. *)
Definition opensView (c : Call) : bool :=
  match c with
  | CallCacheContext _ => true
  | _ => false
  end.

(** The call commits to the context [ctx]: it writes a cache multistore
    into the multistore of [ctx], or emits events on the event manager of
    [ctx]. *)
Definition commits (ctx : sdk.Context) (c : Call) : bool :=
  match c with
  | CallWrite _ parent => Nat.eqb parent (sdk.MultiStoreRef ctx)
  | CallEmitEvents em _ => Nat.eqb em (sdk.EventManagerRef ctx)
  | _ => false
  end.

(** The calls [authenticateTx] may make. *)
Definition authCall (c : Call) : bool :=
  match c with
  | CallGetInterchainAccountAddress _ _ | CallGetAllowMessages
  | CallContainsMsgType _ | CallGetSigners _ => true
  | _ => false
  end.

(** The calls the loop of [executeTx] may make on the context [cacheCtx]. *)
Definition loopCall (cacheCtx : sdk.Context) (c : Call) : bool :=
  match c with
  | CallValidateBasic _ | CallRoute _ => true
  | CallHandler ctx _ =>
      Nat.eqb (sdk.MultiStoreRef ctx) (sdk.MultiStoreRef cacheCtx)
      && Nat.eqb (sdk.EventManagerRef ctx) (sdk.EventManagerRef cacheCtx)
  | CallEmitEvents em _ => Nat.eqb em (sdk.EventManagerRef cacheCtx)
  | _ => false
  end.

(** What [authenticateTx] records when it examines a message that passes
    both checks. *)
Definition examined (msg : sdk.Msg) : list Call :=
  [CallContainsMsgType msg; CallGetSigners msg].

(** [w'] comes from [w] by a run that touches no multistore but the one
    at [cms] and no event manager but the one at [cem], allocates
    nothing, and makes calls that all satisfy [P]. *)
Definition confined (P : Call -> bool) (cms cem : nat) (w w' : World) : Prop :=
  length (stores w') = length (stores w)
  /\ length (managers w') = length (managers w)
  /\ (forall ref, ref <> cms -> stores w' !! ref = stores w !! ref)
  /\ (forall ref, ref <> cem -> managers w' !! ref = managers w !! ref)
  /\ exists t, trace w' = trace w ++ t /\ Forall (fun c => P c = true) t.

(** ** A host chain to run the keeper on *)

Module Sample.

Definition ica : string := "cosmos1interchainaccount".
Definition mallory : string := "cosmos1mallory".

Definition MsgSend : string := "/cosmos.bank.v1beta1.MsgSend".
Definition MsgDelegate : string := "/cosmos.staking.v1beta1.MsgDelegate".
Definition MsgVote : string := "/cosmos.gov.v1beta1.MsgVote".

Definition signedBy (a : string) : list sdk.AccAddress :=
  [ {| sdk.AccAddress_String := a |} ].

(** A bank transfer signed by the interchain account. *)
Definition send : sdk.Msg :=
  {| sdk.MsgTypeURL := MsgSend; sdk.GetSigners := inr (signedBy ica);
     sdk.ValidateBasic := None; sdk.Body := "5stake to bob" |}.

(** A delegation the account cannot pay for. *)
Definition delegate : sdk.Msg :=
  {| sdk.MsgTypeURL := MsgDelegate; sdk.GetSigners := inr (signedBy ica);
     sdk.ValidateBasic := None; sdk.Body := "900stake to val" |}.

(** A transfer that fails its structural validation. *)
Definition invalid : sdk.Msg :=
  {| sdk.MsgTypeURL := MsgSend; sdk.GetSigners := inr (signedBy ica);
     sdk.ValidateBasic := Some (sdkerrors.Plain "invalid coins");
     sdk.Body := "-1stake to bob" |}.

(** A transfer signed by somebody else. *)
Definition forged : sdk.Msg :=
  {| sdk.MsgTypeURL := MsgSend; sdk.GetSigners := inr (signedBy mallory);
     sdk.ValidateBasic := None; sdk.Body := "5stake to mallory" |}.

(** A vote: a type the host neither lists nor routes. *)
Definition vote : sdk.Msg :=
  {| sdk.MsgTypeURL := MsgVote; sdk.GetSigners := inr (signedBy ica);
     sdk.ValidateBasic := None; sdk.Body := "yes on 1" |}.

(** A transfer whose sender address does not decode: its [GetSigners]
    panics. *)
Definition garbled : sdk.Msg :=
  {| sdk.MsgTypeURL := MsgSend;
     sdk.GetSigners := inl "decoding bech32 failed: invalid checksum";
     sdk.ValidateBasic := Some (sdkerrors.Plain "invalid from address");
     sdk.Body := "5stake to bob" |}.

(** The envelope codec of the example: the first byte is the type tag,
    the rest is the batch; an empty payload is malformed. *)
Definition unmarshal (bz : bytes) : error + icatypes.InterchainAccountPacketData :=
  match bz with
  | [] => inl (sdkerrors.Plain "unexpected end of JSON input")
  | tag :: rest =>
      inr {| icatypes.Type_ := Z.of_N (Byte.to_N tag); icatypes.Data := rest;
             icatypes.Memo := "" |}
  end.

(** The batch codec of the example: one byte for each message. *)
Fixpoint deserialize (bz : bytes) : error + list sdk.Msg :=
  match bz with
  | [] => inr []
  | b :: rest =>
      match (match b with
             | Byte.x01 => Some send
             | Byte.x02 => Some delegate
             | Byte.x03 => Some invalid
             | Byte.x04 => Some forged
             | Byte.x05 => Some vote
             | Byte.x06 => Some garbled
             | _ => None
             end), deserialize rest with
      | Some msg, inr msgs => inr (msg :: msgs)
      | None, _ => inl (sdkerrors.Plain "unknown message")
      | _, inl err => inl err
      end
  end.

(** The bank handler records the transfer and emits an event. *)
Definition bank : sdk.Handler :=
  fun s msg =>
    (<["bank/last" := sdk.Body msg]> s,
     inr {| sdk.Result_Data := [Byte.x4f; Byte.x4b]; sdk.GetEvents := ["transfer"] |}).

(** The staking handler writes to the store and then fails. *)
Definition staking : sdk.Handler :=
  fun s msg =>
    (<["staking/pending" := sdk.Body msg]> s,
     inl (sdkerrors.Plain "insufficient funds")).

Definition route (msg : sdk.Msg) : option sdk.Handler :=
  if String.eqb (sdk.MsgTypeURL msg) MsgSend then Some bank
  else if String.eqb (sdk.MsgTypeURL msg) MsgDelegate then Some staking
  else None.

(** An encoder that gives one byte for each result. *)
Definition marshal (txMsgData : sdk.TxMsgData) : error + bytes :=
  inr (map (fun _ => Byte.x0a) (sdk.Data txMsgData)).

(** An encoder that fails. *)
Definition marshalFails (txMsgData : sdk.TxMsgData) : error + bytes :=
  inl (sdkerrors.Plain "proto: size overflow").

(** The host keeper with a given allow-list and a given encoder. *)
Definition keeper (allowMsgs : list string)
    (encode : sdk.TxMsgData -> error + bytes) : Keeper :=
  {| ModuleCdc_UnmarshalJSON := unmarshal;
     cdc_DeserializeCosmosTx := deserialize;
     channelKeeper_GetChannel := fun s portID channelID =>
       (fun hop => {| channeltypes.ConnectionHops := [hop] |})
         <$> s !! ("channels/" +:+ portID +:+ "/" +:+ channelID);
     store_GetInterchainAccountAddress := fun s connectionID portID =>
       s !! ("accounts/" +:+ connectionID +:+ "/" +:+ portID);
     store_GetAllowMessages := fun _ => allowMsgs;
     msgRouter_Handler := route;
     proto_Marshal := encode |}.

(** The host that allows transfers and delegations. *)
Definition host : Keeper := keeper [MsgSend; MsgDelegate] marshal.

(** The ledger: one channel, one interchain account, one earlier transfer. *)
Definition ledger : sdk.MultiStore :=
  {[ "channels/icahost/channel-0" := "connection-0";
     "accounts/connection-0/icacontroller-alice" := ica;
     "bank/last" := "genesis" ]}.

(** The world before the packet: the ambient context on the ledger, with
    one event already emitted. *)
Definition world : World :=
  {| stores := [ledger]; managers := [["recv_packet"]]; trace := [] |}.

Definition ctx : sdk.Context :=
  {| sdk.MultiStoreRef := 0; sdk.EventManagerRef := 0 |}.

(** A packet for channel-0 with the given payload. *)
Definition packet (payload : bytes) : channeltypes.Packet :=
  {| channeltypes.SourcePort := "icacontroller-alice";
     channeltypes.DestinationPort := "icahost";
     channeltypes.DestinationChannel := "channel-0";
     channeltypes.GetData := payload |}.

End Sample.

(** ** The batch as a function on stores *)

(** What the loop of [executeTx] does to the contents of the cache
    multistore, written as a function: the messages run in order, each
    on the store the one before it left; the first message that fails
    its [ValidateBasic], has no route or is refused by its handler ends
    the batch with its error.  A batch that succeeds gives the last
    store, the events of all handlers in order and one result for each
    message.  This function is what [executeTx_msgs] is compared with;
    the keeper does not call it. *)
Fixpoint deliver (k : Keeper) (s : sdk.MultiStore) (msgs : list sdk.Msg)
  : error + (sdk.MultiStore * list sdk.Event * list sdk.MsgData) :=
  match msgs with
  | [] => inr (s, [], [])
  | msg :: msgs' =>
      match sdk.ValidateBasic msg with
      | Some err => inl err
      | None =>
          match msgRouter_Handler k msg with
          | None => inl icatypes.ErrInvalidRoute
          | Some handler =>
              match handler s msg with
              | (_, inl err) => inl err
              | (s', inr res) =>
                  match deliver k s' msgs' with
                  | inl err => inl err
                  | inr (s'', events, results) =>
                      inr (s'', sdk.GetEvents res ++ events,
                           {| sdk.MsgType := sdk.MsgTypeURL msg;
                              sdk.MsgData_Data := sdk.Result_Data res |} :: results)
                  end
              end
          end
      end
  end.

(** ** A host whose handlers read what earlier ones wrote *)

Module Ledger.

Definition MsgDeposit : string := "/sample.v1.MsgDeposit".
Definition MsgClose : string := "/sample.v1.MsgClose".

(** A deposit: it records the deposited amount. *)
Definition deposit : sdk.Msg :=
  {| sdk.MsgTypeURL := MsgDeposit; sdk.GetSigners := inr (Sample.signedBy Sample.ica);
     sdk.ValidateBasic := None; sdk.Body := "7stake" |}.

(** A close: it succeeds only on an account that holds a deposit. *)
Definition close : sdk.Msg :=
  {| sdk.MsgTypeURL := MsgClose; sdk.GetSigners := inr (Sample.signedBy Sample.ica);
     sdk.ValidateBasic := None; sdk.Body := "" |}.

Definition depositHandler : sdk.Handler :=
  fun s msg =>
    (<["vault/balance" := sdk.Body msg]> s,
     inr {| sdk.Result_Data := [Byte.x01]; sdk.GetEvents := ["deposit"] |}).

Definition closeHandler : sdk.Handler :=
  fun s msg =>
    match s !! "vault/balance" with
    | Some balance =>
        (delete "vault/balance" s,
         inr {| sdk.Result_Data := [Byte.x02];
                sdk.GetEvents := ["close"; "refund " +:+ balance] |})
    | None => (s, inl (sdkerrors.Plain "nothing to close"))
    end.

Definition route (msg : sdk.Msg) : option sdk.Handler :=
  if String.eqb (sdk.MsgTypeURL msg) MsgDeposit then Some depositHandler
  else if String.eqb (sdk.MsgTypeURL msg) MsgClose then Some closeHandler
  else None.

(** The host of [Sample], with the vault handlers behind the router. *)
Definition host : Keeper :=
  {| ModuleCdc_UnmarshalJSON := Sample.unmarshal;
     cdc_DeserializeCosmosTx := Sample.deserialize;
     channelKeeper_GetChannel :=
       channelKeeper_GetChannel (Sample.keeper [] Sample.marshal);
     store_GetInterchainAccountAddress :=
       store_GetInterchainAccountAddress (Sample.keeper [] Sample.marshal);
     store_GetAllowMessages := fun _ => [MsgDeposit; MsgClose];
     msgRouter_Handler := route;
     proto_Marshal := Sample.marshal |}.

End Ledger.

(** ** Running computations *)

Ltac unfold_M :=
  unfold mbind, M_bind, mret, M_ret, bind, ret, fail, panic, try, call,
    gets, modify in *.

Lemma log_nil (w : World) : log w [] = w.
Proof. destruct w; unfold log; simpl. by rewrite app_nil_r. Qed.

Lemma log_log (w : World) (t1 t2 : list Call) : log (log w t1) t2 = log w (t1 ++ t2).
Proof. unfold log; simpl. by rewrite app_assoc. Qed.

Lemma bind_run {A B : Type} (m : M A) (f : A -> M B) (w : World) :
  (m ≫= f) w = match m w with
               | (Ok a, w') => f a w'
               | (Err err, w') => (Err err, w')
               | (Panic reason, w') => (Panic reason, w')
               end.
Proof. reflexivity. Qed.

Lemma run_outcome {A : Type} (m : M A) (w : World) (r : outcome A) :
  fst (m w) = r -> m w = (r, snd (m w)).
Proof. intros <-. by destruct (m w). Qed.

Lemma call_run (c : Call) (w : World) : call c w = (Ok tt, log w [c]).
Proof. reflexivity. Qed.

Lemma UnmarshalJSON_run (k : Keeper) (bz : bytes) (w : World) :
  UnmarshalJSON k bz w = (Ok (ModuleCdc_UnmarshalJSON k bz), log w [CallUnmarshalJSON bz]).
Proof. reflexivity. Qed.

Lemma DeserializeCosmosTx_run (k : Keeper) (data : bytes) (w : World) :
  DeserializeCosmosTx k data w =
    (match cdc_DeserializeCosmosTx k data with
     | inl err => Err err
     | inr msgs => Ok msgs
     end, log w [CallDeserializeCosmosTx data]).
Proof.
  unfold DeserializeCosmosTx. rewrite bind_run, call_run.
  by destruct (cdc_DeserializeCosmosTx k data).
Qed.

Lemma GetSigners_run (msg : sdk.Msg) (w : World) :
  GetSigners msg w =
    (match sdk.GetSigners msg with
     | inl reason => Panic reason
     | inr signers => Ok signers
     end, log w [CallGetSigners msg]).
Proof.
  unfold GetSigners. rewrite bind_run, call_run.
  by destruct (sdk.GetSigners msg).
Qed.

Lemma ContainsMsgType_run (allowMsgs : list string) (msg : sdk.Msg) (w : World) :
  ContainsMsgType allowMsgs msg w =
    (Ok (types.ContainsMsgType allowMsgs msg), log w [CallContainsMsgType msg]).
Proof. reflexivity. Qed.

Lemma GetChannel_run (k : Keeper) (ctx : sdk.Context) (portID channelID : string)
    (w : World) :
  GetChannel k ctx portID channelID w =
    (Ok (channelKeeper_GetChannel k (stores w !!! sdk.MultiStoreRef ctx) portID channelID),
     log w [CallGetChannel portID channelID]).
Proof. reflexivity. Qed.

Lemma GetInterchainAccountAddress_run (k : Keeper) (ctx : sdk.Context)
    (connectionID portID : string) (w : World) :
  GetInterchainAccountAddress k ctx connectionID portID w =
    (Ok (store_GetInterchainAccountAddress k (stores w !!! sdk.MultiStoreRef ctx)
           connectionID portID),
     log w [CallGetInterchainAccountAddress connectionID portID]).
Proof. reflexivity. Qed.

Lemma GetAllowMessages_run (k : Keeper) (ctx : sdk.Context) (w : World) :
  GetAllowMessages k ctx w =
    (Ok (store_GetAllowMessages k (stores w !!! sdk.MultiStoreRef ctx)),
     log w [CallGetAllowMessages]).
Proof. reflexivity. Qed.

Lemma ValidateBasic_run (msg : sdk.Msg) (w : World) :
  ValidateBasic msg w =
    (match sdk.ValidateBasic msg with
     | Some err => Err err
     | None => Ok tt
     end, log w [CallValidateBasic msg]).
Proof.
  unfold ValidateBasic. rewrite bind_run, call_run.
  by destruct (sdk.ValidateBasic msg).
Qed.

Lemma Handler_run (k : Keeper) (msg : sdk.Msg) (w : World) :
  Handler k msg w = (Ok (msgRouter_Handler k msg), log w [CallRoute msg]).
Proof. reflexivity. Qed.

Lemma CacheContext_run (ctx : sdk.Context) (w : World) :
  CacheContext ctx w =
    (Ok ({| sdk.MultiStoreRef := length (stores w);
            sdk.EventManagerRef := length (managers w) |},
         Write (length (stores w)) (sdk.MultiStoreRef ctx)),
     {| stores := stores w ++ [stores w !!! sdk.MultiStoreRef ctx];
        managers := managers w ++ [[]];
        trace := trace w ++ [CallCacheContext ctx] |}).
Proof. reflexivity. Qed.

Lemma lookup_total_eq {A : Type} `{Inhabited A} (l l' : list A) (i : nat) :
  l' !! i = l !! i -> l' !!! i = l !!! i.
Proof. intros Heq. by rewrite !list_lookup_total_alt, Heq. Qed.

(** ** The packet handler *)

(** C9.  [OnRecvPacket] reads [msgs[0]] right after the batch is
    deserialized and before it looks at the type of the envelope, with no
    test for an empty batch: on every packet whose payload deserializes
    to the empty batch it panics with an index out of range, whatever the
    type tag, having called nothing but the two decoders. *)
Theorem OnRecvPacket_empty_batch_panics (k : Keeper) (ctx : sdk.Context)
    (packet : channeltypes.Packet) (data : icatypes.InterchainAccountPacketData)
    (w : World) :
  ModuleCdc_UnmarshalJSON k (channeltypes.GetData packet) = inr data ->
  cdc_DeserializeCosmosTx k (icatypes.Data data) = inr [] ->
  OnRecvPacket k ctx packet w =
    (Panic "index out of range",
     log w [CallUnmarshalJSON (channeltypes.GetData packet);
            CallDeserializeCosmosTx (icatypes.Data data)]).
Proof.
  intros Henv Hbatch. unfold OnRecvPacket.
  rewrite bind_run, UnmarshalJSON_run, Henv.
  rewrite bind_run, DeserializeCosmosTx_run, Hbatch.
  rewrite bind_run. unfold index; simpl. unfold panic.
  by rewrite log_log.
Qed.

Lemma OnRecvPacket_empty_batch_panics_witness :
  OnRecvPacket Sample.host Sample.ctx (Sample.packet [Byte.x01]) Sample.world =
    (Panic "index out of range",
     log Sample.world [CallUnmarshalJSON [Byte.x01]; CallDeserializeCosmosTx []])
  /\ OnRecvPacket Sample.host Sample.ctx (Sample.packet [Byte.x07]) Sample.world =
    (Panic "index out of range",
     log Sample.world [CallUnmarshalJSON [Byte.x07]; CallDeserializeCosmosTx []]).
Proof.
  split.
  - apply (OnRecvPacket_empty_batch_panics Sample.host Sample.ctx
             (Sample.packet [Byte.x01])
             {| icatypes.Type_ := 1; icatypes.Data := []; icatypes.Memo := "" |});
      reflexivity.
  - apply (OnRecvPacket_empty_batch_panics Sample.host Sample.ctx
             (Sample.packet [Byte.x07])
             {| icatypes.Type_ := 7; icatypes.Data := []; icatypes.Memo := "" |});
      reflexivity.
Defined.

Lemma OnRecvPacket_malformed_run (k : Keeper) (ctx : sdk.Context)
    (packet : channeltypes.Packet) (cause : error) (w : World) :
  ModuleCdc_UnmarshalJSON k (channeltypes.GetData packet) = inl cause ->
  OnRecvPacket k ctx packet w =
    (Err (sdkerrors.Wrapf icatypes.ErrUnknownDataType
            "cannot unmarshal ICS-27 interchain account packet data"),
     log w [CallUnmarshalJSON (channeltypes.GetData packet)]).
Proof.
  intros Hbad. unfold OnRecvPacket.
  by rewrite bind_run, UnmarshalJSON_run, Hbad.
Qed.

Lemma OnRecvPacket_batch_error_run (k : Keeper) (ctx : sdk.Context)
    (packet : channeltypes.Packet) (data : icatypes.InterchainAccountPacketData)
    (err : error) (w : World) :
  ModuleCdc_UnmarshalJSON k (channeltypes.GetData packet) = inr data ->
  cdc_DeserializeCosmosTx k (icatypes.Data data) = inl err ->
  OnRecvPacket k ctx packet w =
    (Err err,
     log w [CallUnmarshalJSON (channeltypes.GetData packet);
            CallDeserializeCosmosTx (icatypes.Data data)]).
Proof.
  intros Henv Hbatch. unfold OnRecvPacket.
  rewrite bind_run, UnmarshalJSON_run, Henv.
  rewrite bind_run, DeserializeCosmosTx_run, Hbatch.
  by rewrite log_log.
Qed.


(** [msg0.GetSigners()] is called for a log line before the type of the
    envelope is looked at: when it panics, so does [OnRecvPacket],
    whatever the type tag. *)
Lemma OnRecvPacket_first_signers_panic_run (k : Keeper) (ctx : sdk.Context)
    (packet : channeltypes.Packet) (data : icatypes.InterchainAccountPacketData)
    (msg0 : sdk.Msg) (msgs : list sdk.Msg) (reason : string) (w : World) :
  ModuleCdc_UnmarshalJSON k (channeltypes.GetData packet) = inr data ->
  cdc_DeserializeCosmosTx k (icatypes.Data data) = inr (msg0 :: msgs) ->
  sdk.GetSigners msg0 = inl reason ->
  OnRecvPacket k ctx packet w =
    (Panic reason,
     log w [CallUnmarshalJSON (channeltypes.GetData packet);
            CallDeserializeCosmosTx (icatypes.Data data);
            CallGetSigners msg0]).
Proof.
  intros Henv Hbatch Hsigners. unfold OnRecvPacket.
  rewrite bind_run, UnmarshalJSON_run, Henv.
  rewrite bind_run, DeserializeCosmosTx_run, Hbatch.
  rewrite bind_run. unfold index; simpl. unfold ret at 1.
  rewrite bind_run, GetSigners_run, Hsigners.
  by rewrite !log_log.
Qed.







(** ** The authenticator *)

Lemma authenticateTx_account_not_found_run (k : Keeper) (ctx : sdk.Context)
    (msgs : list sdk.Msg) (connectionID portID : string) (w : World) :
  store_GetInterchainAccountAddress k (stores w !!! sdk.MultiStoreRef ctx)
    connectionID portID = None ->
  authenticateTx k ctx msgs connectionID portID w =
    (Err (sdkerrors.Wrapf icatypes.ErrInterchainAccountNotFound
            ("failed to retrieve interchain account on port " +:+ portID)),
     log w [CallGetInterchainAccountAddress connectionID portID]).
Proof.
  intros Hnone. unfold authenticateTx.
  by rewrite bind_run, GetInterchainAccountAddress_run, Hnone.
Qed.

(** With the account resolved and an allow-list that is not empty,
    [authenticateTx] reaches its loop over the messages. *)
Lemma authenticateTx_loop_run (k : Keeper) (ctx : sdk.Context) (msgs : list sdk.Msg)
    (connectionID portID interchainAccountAddr : string) (allowMsgs : list string)
    (w : World) :
  store_GetInterchainAccountAddress k (stores w !!! sdk.MultiStoreRef ctx)
    connectionID portID = Some interchainAccountAddr ->
  store_GetAllowMessages k (stores w !!! sdk.MultiStoreRef ctx) = allowMsgs ->
  allowMsgs <> [] ->
  authenticateTx k ctx msgs connectionID portID w =
    authenticateTx_msgs allowMsgs interchainAccountAddr msgs
      (log w [CallGetInterchainAccountAddress connectionID portID;
              CallGetAllowMessages]).
Proof.
  intros Haddr Hallow Hne. unfold authenticateTx.
  rewrite bind_run, GetInterchainAccountAddress_run, Haddr.
  rewrite bind_run, GetAllowMessages_run. simpl stores. rewrite Hallow.
  rewrite bind_run. destruct allowMsgs as [|allowMsg allowMsgs']; [done|].
  unfold index; simpl. by rewrite log_log.
Qed.

(** C10.  [authenticateTx] reads [allowMsgs[0]] once the address of the
    interchain account is resolved and before it looks at any message,
    with no test for an empty list: whenever the allow-list of the host
    is empty it panics with an index out of range, whatever the batch,
    and returns no error for want of authorization. *)
Theorem authenticateTx_empty_allow_list_panics (k : Keeper) (ctx : sdk.Context)
    (msgs : list sdk.Msg) (connectionID portID interchainAccountAddr : string)
    (w : World) :
  store_GetInterchainAccountAddress k (stores w !!! sdk.MultiStoreRef ctx)
    connectionID portID = Some interchainAccountAddr ->
  store_GetAllowMessages k (stores w !!! sdk.MultiStoreRef ctx) = [] ->
  authenticateTx k ctx msgs connectionID portID w =
    (Panic "index out of range",
     log w [CallGetInterchainAccountAddress connectionID portID;
            CallGetAllowMessages]).
Proof.
  intros Haddr Hallow. unfold authenticateTx.
  rewrite bind_run, GetInterchainAccountAddress_run, Haddr.
  rewrite bind_run, GetAllowMessages_run. simpl stores. rewrite Hallow.
  rewrite bind_run. unfold index; simpl. unfold panic. by rewrite log_log.
Qed.

Lemma authenticateTx_empty_allow_list_panics_witness :
  authenticateTx (Sample.keeper [] Sample.marshal) Sample.ctx [Sample.vote]
    "connection-0" "icacontroller-alice" Sample.world =
    (Panic "index out of range",
     log Sample.world
       [CallGetInterchainAccountAddress "connection-0" "icacontroller-alice";
        CallGetAllowMessages]).
Proof.
  apply (authenticateTx_empty_allow_list_panics (Sample.keeper [] Sample.marshal)
           Sample.ctx [Sample.vote] "connection-0" "icacontroller-alice"
           Sample.ica);
    reflexivity.
Defined.

(** The inner loop leaves the world as it is. *)
Lemma authenticateTx_signers_world (interchainAccountAddr : string)
    (signers : list sdk.AccAddress) (w : World) :
  snd (authenticateTx_signers interchainAccountAddr signers w) = w.
Proof.
  induction signers as [|signer signers' IH]; simpl; [done|].
  by destruct (negb _).
Qed.

(** The inner loop succeeds when every signer is the interchain account. *)
Lemma authenticateTx_signers_ok (interchainAccountAddr : string)
    (signers : list sdk.AccAddress) (w : World) :
  (forall signer, In signer signers ->
     sdk.AccAddress_String signer = interchainAccountAddr) ->
  authenticateTx_signers interchainAccountAddr signers w = (Ok tt, w).
Proof.
  induction signers as [|signer signers' IH]; intros Hall; simpl; [done|].
  rewrite (Hall signer) by (by left). rewrite String.eqb_refl. simpl.
  apply IH. intros s Hs. apply Hall. by right.
Qed.

(** The inner loop fails on the first signer that is not. *)
Lemma authenticateTx_signers_mismatch (interchainAccountAddr : string)
    (good : list sdk.AccAddress) (signer : sdk.AccAddress)
    (rest : list sdk.AccAddress) (w : World) :
  (forall s, In s good -> sdk.AccAddress_String s = interchainAccountAddr) ->
  sdk.AccAddress_String signer <> interchainAccountAddr ->
  authenticateTx_signers interchainAccountAddr (good ++ signer :: rest) w =
    (Err (sdkerrors.Wrapf sdkerrors.ErrUnauthorized
            ("unexpected signer address: expected " +:+ interchainAccountAddr
             +:+ ", got " +:+ sdk.AccAddress_String signer)), w).
Proof.
  induction good as [|s good' IH]; intros Hall Hbad; simpl.
  - destruct (String.eqb_spec interchainAccountAddr (sdk.AccAddress_String signer));
      [congruence | done].
  - rewrite (Hall s) by (by left). rewrite String.eqb_refl. simpl.
    apply IH; [|done]. intros s' Hs'. apply Hall. by right.
Qed.

(** The outer loop runs through a prefix of messages that all pass. *)
Lemma authenticateTx_msgs_app (allowMsgs : list string) (interchainAccountAddr : string)
    (passed rest : list sdk.Msg) (w : World) :
  (forall msg, In msg passed ->
     types.ContainsMsgType allowMsgs msg = true
     /\ exists signers,
          sdk.GetSigners msg = inr signers
          /\ forall signer, In signer signers ->
               sdk.AccAddress_String signer = interchainAccountAddr) ->
  authenticateTx_msgs allowMsgs interchainAccountAddr (passed ++ rest) w =
    authenticateTx_msgs allowMsgs interchainAccountAddr rest
      (log w (flat_map examined passed)).
Proof.
  revert w. induction passed as [|msg passed' IH]; intros w Hall.
  - simpl. by rewrite log_nil.
  - destruct (Hall msg) as (Htype & signers & Hreturns & Hsigners); [by left|].
    change (authenticateTx_msgs allowMsgs interchainAccountAddr
              ((msg :: passed') ++ rest) w)
      with ((allowed ← ContainsMsgType allowMsgs msg;
             if negb allowed
             then fail (sdkerrors.Wrapf sdkerrors.ErrUnauthorized
                          ("message type not allowed: " +:+ sdk.MsgTypeURL msg))
             else
               signers ← GetSigners msg;
               authenticateTx_signers interchainAccountAddr signers;;
               authenticateTx_msgs allowMsgs interchainAccountAddr (passed' ++ rest)) w).
    rewrite bind_run, ContainsMsgType_run, Htype. cbv beta iota. cbn [negb].
    rewrite bind_run, GetSigners_run, Hreturns. cbv beta iota.
    rewrite bind_run, authenticateTx_signers_ok by done. cbv beta iota.
    rewrite IH by (intros m Hm; apply Hall; by right).
    by rewrite !log_log.
Qed.

(** X15.  Away from the empty allow-list, authorization stops at the
    first operation that does not pass.  Let the account be resolved and the
    allow-list not be empty, and let every operation before [msg] be of
    an allowed type and signed by the interchain account only.  If the
    type of [msg] is not allowed, [authenticateTx] fails with
    [ErrUnauthorized] naming that type, and has not asked for the signers
    of [msg]; if the type is allowed, [GetSigners] returns for [msg] and
    [signer] is the first signer of [msg] that is not the interchain
    account, it fails with [ErrUnauthorized] naming that signer.  In
    both cases the operations after [msg] are not examined: they occur
    neither in the result nor in the calls made. *)
Lemma authenticateTx_short_circuit (k : Keeper) (ctx : sdk.Context)
    (connectionID portID interchainAccountAddr : string) (allowMsgs : list string)
    (passed : list sdk.Msg) (msg : sdk.Msg) (later : list sdk.Msg) (w : World) :
  store_GetInterchainAccountAddress k (stores w !!! sdk.MultiStoreRef ctx)
    connectionID portID = Some interchainAccountAddr ->
  store_GetAllowMessages k (stores w !!! sdk.MultiStoreRef ctx) = allowMsgs ->
  allowMsgs <> [] ->
  (forall m, In m passed ->
     types.ContainsMsgType allowMsgs m = true
     /\ exists signers,
          sdk.GetSigners m = inr signers
          /\ forall signer, In signer signers ->
               sdk.AccAddress_String signer = interchainAccountAddr) ->
  (types.ContainsMsgType allowMsgs msg = false ->
   authenticateTx k ctx (passed ++ msg :: later) connectionID portID w =
     (Err (sdkerrors.Wrapf sdkerrors.ErrUnauthorized
             ("message type not allowed: " +:+ sdk.MsgTypeURL msg)),
      log w ([CallGetInterchainAccountAddress connectionID portID;
              CallGetAllowMessages]
             ++ flat_map examined passed ++ [CallContainsMsgType msg])))
  /\ (forall (good : list sdk.AccAddress) (signer : sdk.AccAddress)
             (rest : list sdk.AccAddress),
      types.ContainsMsgType allowMsgs msg = true ->
      sdk.GetSigners msg = inr (good ++ signer :: rest) ->
      (forall s, In s good -> sdk.AccAddress_String s = interchainAccountAddr) ->
      sdk.AccAddress_String signer <> interchainAccountAddr ->
      authenticateTx k ctx (passed ++ msg :: later) connectionID portID w =
        (Err (sdkerrors.Wrapf sdkerrors.ErrUnauthorized
                ("unexpected signer address: expected " +:+ interchainAccountAddr
                 +:+ ", got " +:+ sdk.AccAddress_String signer)),
         log w ([CallGetInterchainAccountAddress connectionID portID;
                 CallGetAllowMessages]
                ++ flat_map examined passed ++ examined msg))).
Proof.
  intros Haddr Hallow Hne Hpassed.
  rewrite (authenticateTx_loop_run k ctx (passed ++ msg :: later) connectionID portID
             interchainAccountAddr allowMsgs w Haddr Hallow Hne).
  rewrite (authenticateTx_msgs_app allowMsgs interchainAccountAddr passed
             (msg :: later) _ Hpassed).
  rewrite log_log. cbn [authenticateTx_msgs]. split.
  - intros Htype.
    rewrite bind_run, ContainsMsgType_run, Htype. cbv beta iota. cbn [negb].
    unfold fail. by rewrite log_log, <- app_assoc.
  - intros good signer rest Htype Hsigners Hgood Hbad.
    rewrite bind_run, ContainsMsgType_run, Htype. cbv beta iota. cbn [negb].
    rewrite bind_run, GetSigners_run, Hsigners. cbv beta iota.
    rewrite bind_run.
    rewrite (authenticateTx_signers_mismatch interchainAccountAddr good signer
               rest _ Hgood Hbad).
    by rewrite !log_log, <- !app_assoc.
Qed.

Lemma authenticateTx_short_circuit_example :
  authenticateTx Sample.host Sample.ctx
    [Sample.send; Sample.vote; Sample.forged]
    "connection-0" "icacontroller-alice" Sample.world =
    (Err (sdkerrors.Wrapf sdkerrors.ErrUnauthorized
            "message type not allowed: /cosmos.gov.v1beta1.MsgVote"),
     log Sample.world
       [CallGetInterchainAccountAddress "connection-0" "icacontroller-alice";
        CallGetAllowMessages;
        CallContainsMsgType Sample.send; CallGetSigners Sample.send;
        CallContainsMsgType Sample.vote])
  /\ authenticateTx Sample.host Sample.ctx
       [Sample.send; Sample.forged; Sample.vote]
       "connection-0" "icacontroller-alice" Sample.world =
    (Err (sdkerrors.Wrapf sdkerrors.ErrUnauthorized
            "unexpected signer address: expected cosmos1interchainaccount, got cosmos1mallory"),
     log Sample.world
       [CallGetInterchainAccountAddress "connection-0" "icacontroller-alice";
        CallGetAllowMessages;
        CallContainsMsgType Sample.send; CallGetSigners Sample.send;
        CallContainsMsgType Sample.forged; CallGetSigners Sample.forged]).
Proof.
  assert (Hsend : forall m, In m [Sample.send] ->
            types.ContainsMsgType [Sample.MsgSend; Sample.MsgDelegate] m = true
            /\ exists signers,
                 sdk.GetSigners m = inr signers
                 /\ forall signer, In signer signers ->
                      sdk.AccAddress_String signer = Sample.ica).
  { intros m [<-|[]]. split; [reflexivity|].
    exists (Sample.signedBy Sample.ica). split; [reflexivity|].
    intros signer [<-|[]]. reflexivity. }
  split.
  - refine (proj1 (authenticateTx_short_circuit Sample.host Sample.ctx
                     "connection-0" "icacontroller-alice" Sample.ica
                     [Sample.MsgSend; Sample.MsgDelegate]
                     [Sample.send] Sample.vote [Sample.forged] Sample.world
                     _ _ _ Hsend) _);
      [reflexivity | reflexivity | discriminate | reflexivity].
  - refine (proj2 (authenticateTx_short_circuit Sample.host Sample.ctx
                     "connection-0" "icacontroller-alice" Sample.ica
                     [Sample.MsgSend; Sample.MsgDelegate]
                     [Sample.send] Sample.forged [Sample.vote] Sample.world
                     _ _ _ Hsend)
                  [] {| sdk.AccAddress_String := Sample.mallory |} [] _ _ _ _);
      [reflexivity | reflexivity | discriminate | reflexivity | reflexivity
      | intros s [] | discriminate].
Defined.

(** C2 does not hold of the code when the allow-list is empty.  No type
    is allowed then, so the first operation of any batch is of a type
    that is not allowed and the authenticator should fail with
    [ErrUnauthorized] for it.  On the host with the empty allow-list and
    the batch made of one transfer signed by the interchain account,
    [authenticateTx] has resolved the account and read the allow-list,
    and then panics on [allowMsgs[0]]: it returns no error at all, and it
    never reaches the type check. *)
Theorem authenticateTx_empty_allow_list_not_unauthorized :
  store_GetInterchainAccountAddress (Sample.keeper [] Sample.marshal)
    (stores Sample.world !!! sdk.MultiStoreRef Sample.ctx)
    "connection-0" "icacontroller-alice" = Some Sample.ica
  /\ store_GetAllowMessages (Sample.keeper [] Sample.marshal)
       (stores Sample.world !!! sdk.MultiStoreRef Sample.ctx) = []
  /\ types.ContainsMsgType [] Sample.send = false
  /\ authenticateTx (Sample.keeper [] Sample.marshal) Sample.ctx [Sample.send]
       "connection-0" "icacontroller-alice" Sample.world =
     (Panic "index out of range",
      log Sample.world
        [CallGetInterchainAccountAddress "connection-0" "icacontroller-alice";
         CallGetAllowMessages]).
Proof. repeat split. Qed.

(** With the wildcard as the allow-list, the inner loop is the only place
    where [authenticateTx_msgs] can fail, and [GetSigners] the only
    place where it can panic. *)
Lemma authenticateTx_signers_outcome (interchainAccountAddr : string)
    (signers : list sdk.AccAddress) (w : World) :
  fst (authenticateTx_signers interchainAccountAddr signers w) = Ok tt
  \/ exists signer,
       fst (authenticateTx_signers interchainAccountAddr signers w) =
         Err (sdkerrors.Wrapf sdkerrors.ErrUnauthorized
                ("unexpected signer address: expected " +:+ interchainAccountAddr
                 +:+ ", got " +:+ sdk.AccAddress_String signer)).
Proof.
  induction signers as [|signer signers' IH]; simpl; [by left|].
  destruct (negb _); [|done]. right. by exists signer.
Qed.

Lemma authenticateTx_msgs_outcome (allowMsgs : list string)
    (interchainAccountAddr : string) (msgs : list sdk.Msg) (w : World) :
  (forall msg, types.ContainsMsgType allowMsgs msg = true) ->
  fst (authenticateTx_msgs allowMsgs interchainAccountAddr msgs w) = Ok tt
  \/ (exists signer,
        fst (authenticateTx_msgs allowMsgs interchainAccountAddr msgs w) =
          Err (sdkerrors.Wrapf sdkerrors.ErrUnauthorized
                 ("unexpected signer address: expected " +:+ interchainAccountAddr
                  +:+ ", got " +:+ sdk.AccAddress_String signer)))
  \/ exists reason,
       fst (authenticateTx_msgs allowMsgs interchainAccountAddr msgs w) = Panic reason.
Proof.
  intros Hall. revert w. induction msgs as [|msg msgs' IH]; intros w.
  - by left.
  - cbn [authenticateTx_msgs].
    rewrite bind_run, ContainsMsgType_run, Hall. cbv beta iota. cbn [negb].
    rewrite bind_run, GetSigners_run. cbv beta iota.
    destruct (sdk.GetSigners msg) as [reason|signers].
    { right. right. by exists reason. }
    rewrite bind_run.
    pose proof (authenticateTx_signers_world interchainAccountAddr
                  signers (log w (examined msg))) as Hworld.
    destruct (authenticateTx_signers_outcome interchainAccountAddr
                signers (log w (examined msg))) as [Hok|[signer Hbad]].
    + rewrite log_log.
      destruct (authenticateTx_signers _ _ _) as [r w1]. simpl in Hok, Hworld.
      subst. apply IH.
    + right. left. exists signer. rewrite log_log.
      destruct (authenticateTx_signers _ _ _) as [r w1]. simpl in Hbad. by subst.
Qed.

(** C3.  When the allow-list of the host is the wildcard entry alone, the
    type check accepts the type of every operation, and [authenticateTx]
    never fails with the error for a type that is not allowed, whatever
    the batch. *)
Theorem wildcard_allows_every_type (k : Keeper) (ctx : sdk.Context)
    (msgs : list sdk.Msg) (connectionID portID : string) (w : World) :
  store_GetAllowMessages k (stores w !!! sdk.MultiStoreRef ctx)
    = [types.AllowAllHostMsgs] ->
  (forall msg : sdk.Msg,
     types.ContainsMsgType
       (store_GetAllowMessages k (stores w !!! sdk.MultiStoreRef ctx)) msg = true)
  /\ (forall typeURL : string,
     fst (authenticateTx k ctx msgs connectionID portID w) <>
       Err (sdkerrors.Wrapf sdkerrors.ErrUnauthorized
              ("message type not allowed: " +:+ typeURL))).
Proof.
  intros Hwild. rewrite Hwild.
  assert (Hall : forall msg, types.ContainsMsgType [types.AllowAllHostMsgs] msg = true)
    by done.
  split; [done|]. intros typeURL.
  destruct (store_GetInterchainAccountAddress k (stores w !!! sdk.MultiStoreRef ctx)
              connectionID portID) as [addr|] eqn:Haddr.
  - rewrite (authenticateTx_loop_run k ctx msgs connectionID portID addr
               [types.AllowAllHostMsgs] w Haddr Hwild) by done.
    destruct (authenticateTx_msgs_outcome [types.AllowAllHostMsgs] addr msgs
                (log w [CallGetInterchainAccountAddress connectionID portID;
                        CallGetAllowMessages]) Hall)
      as [Hok|[[signer Hbad]|[reason Hpanic]]].
    + rewrite Hok. discriminate.
    + rewrite Hbad. simpl. discriminate.
    + rewrite Hpanic. discriminate.
  - rewrite (authenticateTx_account_not_found_run k ctx msgs connectionID portID w
               Haddr).
    discriminate.
Qed.

Lemma wildcard_allows_every_type_witness :
  types.ContainsMsgType [types.AllowAllHostMsgs] Sample.vote = true
  /\ fst (authenticateTx (Sample.keeper [types.AllowAllHostMsgs] Sample.marshal)
            Sample.ctx [Sample.send; Sample.vote]
            "connection-0" "icacontroller-alice" Sample.world) <>
       Err (sdkerrors.Wrapf sdkerrors.ErrUnauthorized
              ("message type not allowed: " +:+ Sample.MsgVote)).
Proof.
  pose proof (wildcard_allows_every_type
                (Sample.keeper [types.AllowAllHostMsgs] Sample.marshal)
                Sample.ctx [Sample.send; Sample.vote]
                "connection-0" "icacontroller-alice" Sample.world eq_refl)
    as [Htype Hauth].
  split; [apply (Htype Sample.vote) | apply (Hauth Sample.MsgVote)].
Defined.

(** [authenticateTx] reads; all it leaves in the world is its calls. *)
Lemma authenticateTx_msgs_world (allowMsgs : list string)
    (interchainAccountAddr : string) (msgs : list sdk.Msg) (w : World) :
  exists t,
    snd (authenticateTx_msgs allowMsgs interchainAccountAddr msgs w) = log w t
    /\ Forall (fun c => authCall c = true) t.
Proof.
  revert w. induction msgs as [|msg msgs' IH]; intros w.
  - exists []. by rewrite log_nil.
  - cbn [authenticateTx_msgs].
    rewrite bind_run, ContainsMsgType_run. cbv beta iota.
    destruct (negb _).
    { exists [CallContainsMsgType msg]. by repeat constructor. }
    rewrite bind_run, GetSigners_run. cbv beta iota. rewrite log_log.
    change ([CallContainsMsgType msg] ++ [CallGetSigners msg]) with (examined msg).
    destruct (sdk.GetSigners msg) as [reason|signers].
    { exists (examined msg). by repeat constructor. }
    rewrite bind_run.
    pose proof (authenticateTx_signers_world interchainAccountAddr
                  signers (log w (examined msg))) as Hworld.
    destruct (authenticateTx_signers _ _ _) as [[[]| |] w1]; simpl in Hworld; subst;
      try (exists (examined msg); by repeat constructor).
    destruct (IH (log w (examined msg))) as (t & Ht & HP).
    exists (examined msg ++ t). rewrite Ht, log_log. split; [done|].
    apply Forall_app. split; [by repeat constructor | done].
Qed.

Lemma authenticateTx_world (k : Keeper) (ctx : sdk.Context) (msgs : list sdk.Msg)
    (connectionID portID : string) (w : World) :
  exists t,
    snd (authenticateTx k ctx msgs connectionID portID w) = log w t
    /\ Forall (fun c => authCall c = true) t.
Proof.
  destruct (store_GetInterchainAccountAddress k (stores w !!! sdk.MultiStoreRef ctx)
              connectionID portID) as [addr|] eqn:Haddr.
  - destruct (store_GetAllowMessages k (stores w !!! sdk.MultiStoreRef ctx))
      as [|allowMsg allowMsgs'] eqn:Hallow.
    + unfold authenticateTx.
      rewrite bind_run, GetInterchainAccountAddress_run, Haddr.
      rewrite bind_run, GetAllowMessages_run. simpl stores. rewrite Hallow.
      rewrite bind_run. unfold index; simpl. unfold panic. rewrite log_log.
      eexists. split; [reflexivity | by repeat constructor].
    + rewrite (authenticateTx_loop_run k ctx msgs connectionID portID addr
                 (allowMsg :: allowMsgs') w Haddr Hallow) by done.
      destruct (authenticateTx_msgs_world (allowMsg :: allowMsgs') addr msgs
                  (log w [CallGetInterchainAccountAddress connectionID portID;
                          CallGetAllowMessages])) as (t & Ht & HP).
      rewrite Ht, log_log. eexists. split; [reflexivity|].
      apply Forall_app. split; [by repeat constructor | done].
  - rewrite (authenticateTx_account_not_found_run k ctx msgs connectionID portID w
               Haddr).
    eexists. split; [reflexivity | by repeat constructor].
Qed.

Lemma authCall_commits (ctx : sdk.Context) (c : Call) :
  authCall c = true -> commits ctx c = false.
Proof. by destruct c. Qed.

Lemma authCall_opensView (c : Call) : authCall c = true -> opensView c = false.
Proof. by destruct c. Qed.

(** ** Runs confined to a context *)

Section Confined.

Variables (P : Call -> bool) (cms cem : nat).

Lemma confined_refl (w : World) : confined P cms cem w w.
Proof.
  repeat split; try done. exists []. by rewrite app_nil_r.
Qed.

Lemma confined_trans (w1 w2 w3 : World) :
  confined P cms cem w1 w2 -> confined P cms cem w2 w3 -> confined P cms cem w1 w3.
Proof.
  intros (Hs1 & Hm1 & Hst1 & Hmg1 & t1 & Ht1 & HP1)
         (Hs2 & Hm2 & Hst2 & Hmg2 & t2 & Ht2 & HP2).
  repeat split.
  - congruence.
  - congruence.
  - intros ref Href. by rewrite Hst2, Hst1.
  - intros ref Href. by rewrite Hmg2, Hmg1.
  - exists (t1 ++ t2). split; [by rewrite Ht2, Ht1, app_assoc|].
    by apply Forall_app.
Qed.

Lemma confined_log (w : World) (t : list Call) :
  Forall (fun c => P c = true) t -> confined P cms cem w (log w t).
Proof. intros HP. repeat split; try done. by exists t. Qed.

Lemma confined_setStore (s : sdk.MultiStore) (w : World) :
  confined P cms cem w (snd (setStore cms s w)).
Proof.
  repeat split; simpl.
  - apply length_insert.
  - intros ref Href. by apply list_lookup_insert_ne.
  - exists []. by rewrite app_nil_r.
Qed.

End Confined.

Lemma loopCall_self (cacheCtx : sdk.Context) (msg : sdk.Msg) :
  loopCall cacheCtx (CallHandler cacheCtx msg) = true.
Proof. simpl. by rewrite !Nat.eqb_refl. Qed.

Lemma loopCall_commits (ctx cacheCtx : sdk.Context) (c : Call) :
  sdk.EventManagerRef ctx <> sdk.EventManagerRef cacheCtx ->
  loopCall cacheCtx c = true -> commits ctx c = false.
Proof.
  intros Hne. destruct c; simpl; try done.
  intros Heq%Nat.eqb_eq. apply Nat.eqb_neq. congruence.
Qed.

Lemma invoke_confined (handler : sdk.Handler) (cacheCtx : sdk.Context)
    (msg : sdk.Msg) (w : World) :
  confined (loopCall cacheCtx) (sdk.MultiStoreRef cacheCtx)
    (sdk.EventManagerRef cacheCtx) w (snd (invoke handler cacheCtx msg w)).
Proof.
  unfold invoke. rewrite bind_run, call_run. cbv beta iota.
  eapply confined_trans.
  { apply (confined_log _ _ _ w [CallHandler cacheCtx msg]).
    constructor; [apply loopCall_self | constructor]. }
  rewrite bind_run. unfold getStore, gets. cbv beta iota.
  destruct (handler _ msg) as [s' r].
  rewrite bind_run.
  pose proof (confined_setStore (loopCall cacheCtx) (sdk.MultiStoreRef cacheCtx)
                (sdk.EventManagerRef cacheCtx) s'
                (log w [CallHandler cacheCtx msg])) as Hset.
  destruct (setStore _ s' _) as [[[]| |] w1] eqn:Hrun; try discriminate Hrun.
  simpl in Hset. by destruct r.
Qed.

Lemma EmitEvents_confined (cacheCtx : sdk.Context) (events : list sdk.Event)
    (w : World) :
  confined (loopCall cacheCtx) (sdk.MultiStoreRef cacheCtx)
    (sdk.EventManagerRef cacheCtx) w
    (snd (EmitEvents (EventManager cacheCtx) events w)).
Proof.
  repeat split; simpl.
  - apply length_insert.
  - intros ref Href. by apply list_lookup_insert_ne.
  - eexists. split; [done|]. constructor; [|constructor].
    simpl. apply Nat.eqb_refl.
Qed.

Lemma EmitEvents_ok (em : nat) (events : list sdk.Event) (w : World) :
  fst (EmitEvents em events w) = Ok tt.
Proof. reflexivity. Qed.

(** [executeMsg] touches the context it is given and nothing else. *)
Lemma executeMsg_confined (k : Keeper) (cacheCtx : sdk.Context) (msg : sdk.Msg)
    (w : World) :
  confined (loopCall cacheCtx) (sdk.MultiStoreRef cacheCtx)
    (sdk.EventManagerRef cacheCtx) w (snd (executeMsg k cacheCtx msg w)).
Proof.
  unfold executeMsg. rewrite bind_run, Handler_run. cbv beta iota.
  eapply confined_trans.
  { apply (confined_log _ _ _ w [CallRoute msg]). by repeat constructor. }
  destruct (msgRouter_Handler k msg) as [handler|]; [|apply confined_refl].
  rewrite bind_run.
  pose proof (invoke_confined handler cacheCtx msg (log w [CallRoute msg])) as Hinv.
  destruct (invoke handler cacheCtx msg _) as [[res| |] w1]; simpl in Hinv; try done.
  eapply confined_trans; [exact Hinv|].
  rewrite bind_run.
  pose proof (EmitEvents_confined cacheCtx (sdk.GetEvents res) w1) as Hemit.
  pose proof (EmitEvents_ok (EventManager cacheCtx) (sdk.GetEvents res) w1) as Hok.
  destruct (EmitEvents _ _ w1) as [r w2]. simpl in Hemit, Hok. by subst.
Qed.

Lemma setData_world (txMsgData : sdk.TxMsgData) (i : nat) (v : sdk.MsgData)
    (w : World) :
  snd (setData txMsgData i v w) = w.
Proof. unfold setData. by destruct (decide _). Qed.

(** The loop of [executeTx] touches the cache context and nothing else. *)
Lemma executeTx_msgs_confined (k : Keeper) (cacheCtx : sdk.Context)
    (msgs : list sdk.Msg) (i : nat) (txMsgData : sdk.TxMsgData) (w : World) :
  confined (loopCall cacheCtx) (sdk.MultiStoreRef cacheCtx)
    (sdk.EventManagerRef cacheCtx) w
    (snd (executeTx_msgs k cacheCtx i msgs txMsgData w)).
Proof.
  revert i txMsgData w.
  induction msgs as [|msg msgs' IH]; intros i txMsgData w.
  - apply confined_refl.
  - cbn [executeTx_msgs]. rewrite bind_run, ValidateBasic_run.
    eapply confined_trans.
    { apply (confined_log _ _ _ w [CallValidateBasic msg]). by repeat constructor. }
    destruct (sdk.ValidateBasic msg); [apply confined_refl|].
    rewrite bind_run.
    pose proof (executeMsg_confined k cacheCtx msg (log w [CallValidateBasic msg]))
      as Hmsg.
    destruct (executeMsg k cacheCtx msg _) as [[msgResponse| |] w1];
      simpl in Hmsg; try done.
    eapply confined_trans; [exact Hmsg|].
    rewrite bind_run.
    pose proof (setData_world txMsgData i
                  {| sdk.MsgType := sdk.MsgTypeURL msg;
                     sdk.MsgData_Data := msgResponse |} w1) as Hset.
    destruct (setData _ _ _ w1) as [[txMsgData'| |] w2]; simpl in Hset; subst;
      try apply confined_refl.
    apply IH.
Qed.

(** The loop over a batch is the loop over its first part, followed by the
    loop over the rest. *)
Lemma executeTx_msgs_app (k : Keeper) (cacheCtx : sdk.Context)
    (passed rest : list sdk.Msg) (i : nat) (txMsgData : sdk.TxMsgData) (w : World) :
  executeTx_msgs k cacheCtx i (passed ++ rest) txMsgData w =
    match executeTx_msgs k cacheCtx i passed txMsgData w with
    | (Ok txMsgData', w') =>
        executeTx_msgs k cacheCtx (i + length passed) rest txMsgData' w'
    | (Err err, w') => (Err err, w')
    | (Panic reason, w') => (Panic reason, w')
    end.
Proof.
  revert i txMsgData w.
  induction passed as [|msg passed' IH]; intros i txMsgData w.
  - simpl. unfold ret. by rewrite Nat.add_0_r.
  - cbn [executeTx_msgs app length]. rewrite !bind_run.
    destruct (ValidateBasic msg w) as [[[]| |] w1]; try done.
    rewrite !bind_run.
    destruct (executeMsg k cacheCtx msg w1) as [[msgResponse| |] w2]; try done.
    rewrite !bind_run.
    destruct (setData _ _ _ w2) as [[txMsgData'| |] w3]; try done.
    rewrite IH. by replace (S i + length passed') with (i + S (length passed')) by lia.
Qed.

(** The loop never indexes [txMsgData.Data] out of range: started at [i]
    on a slice that has room for the messages that remain, it does not
    panic. *)
Lemma executeTx_msgs_no_panic (k : Keeper) (cacheCtx : sdk.Context)
    (msgs : list sdk.Msg) (i : nat) (txMsgData : sdk.TxMsgData) (w : World)
    (reason : string) :
  length (sdk.Data txMsgData) = i + length msgs ->
  fst (executeTx_msgs k cacheCtx i msgs txMsgData w) <> Panic reason.
Proof.
  revert i txMsgData w.
  induction msgs as [|msg msgs' IH]; intros i txMsgData w Hlen; [done|].
  cbn [executeTx_msgs]. rewrite bind_run, ValidateBasic_run.
  destruct (sdk.ValidateBasic msg); [done|].
  rewrite bind_run. unfold executeMsg at 1.
  rewrite bind_run, Handler_run. cbv beta iota.
  destruct (msgRouter_Handler k msg) as [handler|]; [|done].
  rewrite bind_run. unfold invoke at 1.
  rewrite bind_run, call_run. cbv beta iota.
  rewrite bind_run. unfold getStore, gets. cbv beta iota.
  destruct (handler _ msg) as [s' [err|res]]; [done|].
  rewrite bind_run. unfold setStore, modify. cbv beta iota. unfold try, ret at 1.
  rewrite bind_run. unfold EmitEvents at 1.
  rewrite bind_run, call_run. cbv beta iota. unfold modify, ret at 1.
  rewrite bind_run. unfold setData at 1.
  simpl length in Hlen. destruct (decide (i < length (sdk.Data txMsgData))); [|lia].
  unfold ret at 1. apply IH. simpl. rewrite length_insert. lia.
Qed.

(** A run confined to the branch made by [CacheContext] leaves everything
    that existed before the branch as it was, and commits nothing. *)
Lemma branch_confined (ctx cacheCtx : sdk.Context) (writeCache : M unit)
    (w wc w' : World) :
  sdk.EventManagerRef ctx < length (managers w) ->
  CacheContext ctx w = (Ok (cacheCtx, writeCache), wc) ->
  confined (loopCall cacheCtx) (sdk.MultiStoreRef cacheCtx)
    (sdk.EventManagerRef cacheCtx) wc w' ->
  (forall ref, ref < length (stores w) -> stores w' !! ref = stores w !! ref)
  /\ (forall ref, ref < length (managers w) -> managers w' !! ref = managers w !! ref)
  /\ exists t, trace w' = trace w ++ t /\ Forall (fun c => commits ctx c = false) t.
Proof.
  intros Hlive Hcache (Hs & Hm & Hst & Hmg & t & Ht & HP).
  rewrite CacheContext_run in Hcache. injection Hcache as <- _ <-.
  simpl in Hs, Hm, Hst, Hmg, Ht, HP. split; [|split].
  - intros ref Href. rewrite Hst by lia. by apply lookup_app_l.
  - intros ref Href. rewrite Hmg by lia. by apply lookup_app_l.
  - exists (CallCacheContext ctx :: t). split.
    + by rewrite Ht, <- app_assoc.
    + constructor; [done|]. eapply Forall_impl; [exact HP|].
      intros c Hc. eapply loopCall_commits; [|exact Hc]. simpl. lia.
Qed.

(** ** The executor *)

(** C6.  The channel is looked up first: when the destination port and
    channel resolve to no channel, [executeTx] fails with
    [ErrChannelNotFound] after that one call.  The address of the
    interchain account is not resolved, the allow-list is not read, no
    message is examined and no cache context is made: the world is the
    one before the call, but for the record of the lookup. *)
Theorem executeTx_channel_not_found (k : Keeper) (ctx : sdk.Context)
    (sourcePort destPort destChannel : string) (msgs : list sdk.Msg) (w : World) :
  channelKeeper_GetChannel k (stores w !!! sdk.MultiStoreRef ctx)
    destPort destChannel = None ->
  executeTx k ctx sourcePort destPort destChannel msgs w =
    (Err channeltypes.ErrChannelNotFound,
     log w [CallGetChannel destPort destChannel]).
Proof.
  intros Hnone. unfold executeTx.
  by rewrite bind_run, GetChannel_run, Hnone.
Qed.

Lemma executeTx_channel_not_found_witness :
  executeTx (Sample.keeper [] Sample.marshal) Sample.ctx
    "icacontroller-mallory" "icahost" "channel-7" [Sample.forged] Sample.world =
    (Err channeltypes.ErrChannelNotFound,
     log Sample.world [CallGetChannel "icahost" "channel-7"]).
Proof.
  apply (executeTx_channel_not_found (Sample.keeper [] Sample.marshal) Sample.ctx
           "icacontroller-mallory" "icahost" "channel-7" [Sample.forged]
           Sample.world).
  reflexivity.
Defined.

(** [executeTx] up to the call of the authenticator. *)
Lemma executeTx_authenticate_run (k : Keeper) (ctx : sdk.Context)
    (sourcePort destPort destChannel : string) (msgs : list sdk.Msg)
    (channel : channeltypes.Channel) (connectionID : string) (w : World) :
  channelKeeper_GetChannel k (stores w !!! sdk.MultiStoreRef ctx)
    destPort destChannel = Some channel ->
  channeltypes.ConnectionHops channel !! 0 = Some connectionID ->
  executeTx k ctx sourcePort destPort destChannel msgs w =
    match authenticateTx k ctx msgs connectionID sourcePort
            (log w [CallGetChannel destPort destChannel]) with
    | (Ok _, w1) =>
        ('(cacheCtx, writeCache) ← CacheContext ctx;
         txMsgData ← executeTx_msgs k cacheCtx 0 msgs
                       {| sdk.Data := replicate (length msgs) None |};
         events ← Events (EventManager cacheCtx);
         EmitEvents (EventManager ctx) events;;
         writeCache;;
         txResponse ← Marshal k txMsgData;
         match txResponse with
         | inl err => fail (sdkerrors.Wrap err "failed to marshal tx data")
         | inr txResponse => ret txResponse
         end) w1
    | (Err err, w1) => (Err err, w1)
    | (Panic reason, w1) => (Panic reason, w1)
    end.
Proof.
  intros Hchannel Hhop. unfold executeTx.
  rewrite bind_run, GetChannel_run, Hchannel. cbv beta iota.
  rewrite bind_run. unfold index. rewrite Hhop. unfold ret at 1.
  by rewrite bind_run.
Qed.

(** C7.  When the authenticator fails (no account, a type that is not
    allowed, a signer that is not the account), [executeTx] returns the
    very error of the authenticator and leaves the world the
    authenticator left: no multistore and no event manager is changed or
    made, and no call of [CacheContext] is among the calls of the run. *)
Theorem executeTx_authentication_fails (k : Keeper) (ctx : sdk.Context)
    (sourcePort destPort destChannel : string) (msgs : list sdk.Msg)
    (channel : channeltypes.Channel) (connectionID : string) (err : error)
    (w w' : World) :
  channelKeeper_GetChannel k (stores w !!! sdk.MultiStoreRef ctx)
    destPort destChannel = Some channel ->
  channeltypes.ConnectionHops channel !! 0 = Some connectionID ->
  authenticateTx k ctx msgs connectionID sourcePort
    (log w [CallGetChannel destPort destChannel]) = (Err err, w') ->
  executeTx k ctx sourcePort destPort destChannel msgs w = (Err err, w')
  /\ stores w' = stores w
  /\ managers w' = managers w
  /\ exists t, trace w' = trace w ++ t
               /\ Forall (fun c => opensView c = false /\ commits ctx c = false) t.
Proof.
  intros Hchannel Hhop Hauth.
  rewrite (executeTx_authenticate_run k ctx sourcePort destPort destChannel msgs
             channel connectionID w Hchannel Hhop), Hauth.
  split; [done|].
  destruct (authenticateTx_world k ctx msgs connectionID sourcePort
              (log w [CallGetChannel destPort destChannel])) as (t & Ht & HP).
  rewrite Hauth in Ht. simpl in Ht. subst w'. rewrite log_log.
  repeat split. eexists. split; [reflexivity|].
  constructor; [done|]. eapply Forall_impl; [exact HP|].
  intros c Hc. split; [by apply authCall_opensView | by apply authCall_commits].
Qed.

Lemma executeTx_authentication_fails_witness :
  executeTx Sample.host Sample.ctx "icacontroller-alice" "icahost" "channel-0"
    [Sample.forged] Sample.world =
    (Err (sdkerrors.Wrapf sdkerrors.ErrUnauthorized
            "unexpected signer address: expected cosmos1interchainaccount, got cosmos1mallory"),
     log Sample.world
       [CallGetChannel "icahost" "channel-0";
        CallGetInterchainAccountAddress "connection-0" "icacontroller-alice";
        CallGetAllowMessages;
        CallContainsMsgType Sample.forged; CallGetSigners Sample.forged])
  /\ executeTx Sample.host Sample.ctx "icacontroller-alice" "icahost" "channel-0"
       [Sample.vote] Sample.world =
    (Err (sdkerrors.Wrapf sdkerrors.ErrUnauthorized
            "message type not allowed: /cosmos.gov.v1beta1.MsgVote"),
     log Sample.world
       [CallGetChannel "icahost" "channel-0";
        CallGetInterchainAccountAddress "connection-0" "icacontroller-alice";
        CallGetAllowMessages;
        CallContainsMsgType Sample.vote])
  /\ executeTx Sample.host Sample.ctx "icacontroller-bob" "icahost" "channel-0"
       [Sample.send] Sample.world =
    (Err (sdkerrors.Wrapf icatypes.ErrInterchainAccountNotFound
            "failed to retrieve interchain account on port icacontroller-bob"),
     log Sample.world
       [CallGetChannel "icahost" "channel-0";
        CallGetInterchainAccountAddress "connection-0" "icacontroller-bob"]).
Proof.
  split; [|split].
  - refine (proj1 (executeTx_authentication_fails Sample.host Sample.ctx
                     "icacontroller-alice" "icahost" "channel-0" [Sample.forged]
                     {| channeltypes.ConnectionHops := ["connection-0"] |}
                     "connection-0" _ Sample.world _ _ _ _));
      reflexivity.
  - refine (proj1 (executeTx_authentication_fails Sample.host Sample.ctx
                     "icacontroller-alice" "icahost" "channel-0" [Sample.vote]
                     {| channeltypes.ConnectionHops := ["connection-0"] |}
                     "connection-0" _ Sample.world _ _ _ _));
      reflexivity.
  - refine (proj1 (executeTx_authentication_fails Sample.host Sample.ctx
                     "icacontroller-bob" "icahost" "channel-0" [Sample.send]
                     {| channeltypes.ConnectionHops := ["connection-0"] |}
                     "connection-0" _ Sample.world _ _ _ _));
      reflexivity.
Defined.

(** [executeTx] from the call of [CacheContext] on, when the loop fails. *)
Lemma executeTx_tail_fails (k : Keeper) (ctx cacheCtx : sdk.Context)
    (writeCache : M unit) (msgs : list sdk.Msg) (err : error) (w1 wc w' : World) :
  CacheContext ctx w1 = (Ok (cacheCtx, writeCache), wc) ->
  executeTx_msgs k cacheCtx 0 msgs {| sdk.Data := replicate (length msgs) None |} wc
    = (Err err, w') ->
  ('(cacheCtx, writeCache) ← CacheContext ctx;
   txMsgData ← executeTx_msgs k cacheCtx 0 msgs
                 {| sdk.Data := replicate (length msgs) None |};
   events ← Events (EventManager cacheCtx);
   EmitEvents (EventManager ctx) events;;
   writeCache;;
   txResponse ← Marshal k txMsgData;
   match txResponse with
   | inl err => fail (sdkerrors.Wrap err "failed to marshal tx data")
   | inr txResponse => ret txResponse
   end) w1 = (Err err, w').
Proof.
  intros Hcache Hloop. rewrite bind_run, Hcache. cbv beta iota.
  by rewrite bind_run, Hloop.
Qed.

(** The world after the commit: the events of the cache context are
    appended to the event manager of [ctx], then the cache multistore is
    written into the multistore of [ctx], then the results are encoded. *)
Lemma executeTx_tail_commits (k : Keeper) (ctx cacheCtx : sdk.Context)
    (writeCache : M unit) (msgs : list sdk.Msg) (txMsgData : sdk.TxMsgData)
    (w1 wc w2 : World) :
  CacheContext ctx w1 = (Ok (cacheCtx, writeCache), wc) ->
  executeTx_msgs k cacheCtx 0 msgs {| sdk.Data := replicate (length msgs) None |} wc
    = (Ok txMsgData, w2) ->
  ('(cacheCtx, writeCache) ← CacheContext ctx;
   txMsgData ← executeTx_msgs k cacheCtx 0 msgs
                 {| sdk.Data := replicate (length msgs) None |};
   events ← Events (EventManager cacheCtx);
   EmitEvents (EventManager ctx) events;;
   writeCache;;
   txResponse ← Marshal k txMsgData;
   match txResponse with
   | inl err => fail (sdkerrors.Wrap err "failed to marshal tx data")
   | inr txResponse => ret txResponse
   end) w1 =
  (match proto_Marshal k txMsgData with
   | inl err => Err (sdkerrors.Wrap err "failed to marshal tx data")
   | inr txResponse => Ok txResponse
   end,
   {| stores := <[sdk.MultiStoreRef ctx := stores w2 !!! sdk.MultiStoreRef cacheCtx]>
                  (stores w2);
      managers := <[sdk.EventManagerRef ctx :=
                      (managers w2 !!! sdk.EventManagerRef ctx)
                      ++ (managers w2 !!! sdk.EventManagerRef cacheCtx)]> (managers w2);
      trace := trace w2
               ++ [CallEmitEvents (sdk.EventManagerRef ctx)
                     (managers w2 !!! sdk.EventManagerRef cacheCtx);
                   CallWrite (sdk.MultiStoreRef cacheCtx) (sdk.MultiStoreRef ctx);
                   CallMarshal txMsgData] |}).
Proof.
  intros Hcache Hloop. rewrite bind_run, Hcache. cbv beta iota.
  rewrite bind_run, Hloop.
  rewrite CacheContext_run in Hcache. injection Hcache as <- <- _.
  unfold Events, EmitEvents, Write, Marshal, getStore, setStore, EventManager.
  unfold_M. simpl. rewrite <- !app_assoc. simpl.
  by destruct (proto_Marshal k txMsgData).
Qed.

(** C1.  Execution of a batch is atomic.  Let [executeTx] have found the
    channel and authenticated the batch, let the operations before [msg]
    have run in the cache context, and let [msg] fail, in its
    [ValidateBasic] or in [executeMsg].  Then [executeTx] returns the
    error of [msg]; the multistore and the event manager of the ambient
    context hold what they held before the call, as does every
    multistore and event manager that existed then; and the run contains
    no write of a cache multistore into the ambient one and no emission
    on the ambient event manager: what the operations before [msg] wrote
    and emitted stays in the cache context. *)
Theorem executeTx_atomic (k : Keeper) (ctx cacheCtx : sdk.Context)
    (writeCache : M unit) (sourcePort destPort destChannel : string)
    (passed : list sdk.Msg) (msg : sdk.Msg) (later : list sdk.Msg)
    (channel : channeltypes.Channel) (connectionID : string) (err : error)
    (txMsgData : sdk.TxMsgData) (w w1 wc w2 : World) :
  live ctx w ->
  channelKeeper_GetChannel k (stores w !!! sdk.MultiStoreRef ctx)
    destPort destChannel = Some channel ->
  channeltypes.ConnectionHops channel !! 0 = Some connectionID ->
  authenticateTx k ctx (passed ++ msg :: later) connectionID sourcePort
    (log w [CallGetChannel destPort destChannel]) = (Ok tt, w1) ->
  CacheContext ctx w1 = (Ok (cacheCtx, writeCache), wc) ->
  executeTx_msgs k cacheCtx 0 passed
    {| sdk.Data := replicate (length (passed ++ msg :: later)) None |} wc
    = (Ok txMsgData, w2) ->
  (sdk.ValidateBasic msg = Some err
   \/ (sdk.ValidateBasic msg = None
       /\ fst (executeMsg k cacheCtx msg (log w2 [CallValidateBasic msg])) = Err err)) ->
  exists w',
    executeTx k ctx sourcePort destPort destChannel (passed ++ msg :: later) w
      = (Err err, w')
    /\ stores w' !!! sdk.MultiStoreRef ctx = stores w !!! sdk.MultiStoreRef ctx
    /\ managers w' !!! sdk.EventManagerRef ctx = managers w !!! sdk.EventManagerRef ctx
    /\ (forall ref, ref < length (stores w) -> stores w' !! ref = stores w !! ref)
    /\ (forall ref, ref < length (managers w) -> managers w' !! ref = managers w !! ref)
    /\ exists t, trace w' = trace w ++ t
                 /\ Forall (fun c => commits ctx c = false) t.
Proof.
  intros [Hms Hem] Hchannel Hhop Hauth Hcache Hpassed Hfails.
  (* the run of the loop, up to the failure of [msg] *)
  assert (exists w',
            executeTx_msgs k cacheCtx 0 (passed ++ msg :: later)
              {| sdk.Data := replicate (length (passed ++ msg :: later)) None |} wc
              = (Err err, w')) as [w' Hloop].
  { rewrite executeTx_msgs_app, Hpassed. cbn [executeTx_msgs].
    rewrite bind_run, ValidateBasic_run.
    destruct Hfails as [Hvalidate|[Hvalidate Hexecute]]; rewrite Hvalidate.
    - by eexists.
    - rewrite bind_run.
      destruct (executeMsg k cacheCtx msg _) as [r w3]. simpl in Hexecute. subst r.
      by eexists. }
  exists w'.
  rewrite (executeTx_authenticate_run k ctx sourcePort destPort destChannel
             (passed ++ msg :: later) channel connectionID w Hchannel Hhop), Hauth.
  rewrite (executeTx_tail_fails k ctx cacheCtx writeCache (passed ++ msg :: later)
             err w1 wc w' Hcache Hloop).
  split; [done|].
  (* the world the authenticator left *)
  destruct (authenticateTx_world k ctx (passed ++ msg :: later) connectionID
              sourcePort (log w [CallGetChannel destPort destChannel]))
    as (ta & Hta & HPa).
  rewrite Hauth in Hta. simpl in Hta. rewrite log_log in Hta.
  (* the world the loop left *)
  pose proof (executeTx_msgs_confined k cacheCtx (passed ++ msg :: later) 0
                {| sdk.Data := replicate (length (passed ++ msg :: later)) None |} wc)
    as Hconfined.
  rewrite Hloop in Hconfined. simpl in Hconfined.
  assert (Hem1 : sdk.EventManagerRef ctx < length (managers w1)) by (by subst w1).
  destruct (branch_confined ctx cacheCtx writeCache w1 wc w' Hem1 Hcache Hconfined)
    as (Hstores & Hmanagers & t & Ht & HP).
  subst w1. simpl in Hstores, Hmanagers, Ht.
  split; [|split; [|split; [|split]]].
  - apply lookup_total_eq. by apply Hstores.
  - apply lookup_total_eq. by apply Hmanagers.
  - exact Hstores.
  - exact Hmanagers.
  - exists (([CallGetChannel destPort destChannel] ++ ta) ++ t). split.
    + by rewrite Ht, <- !app_assoc.
    + apply Forall_app. split; [|done]. constructor; [done|].
      eapply Forall_impl; [exact HPa|]. intros c. apply authCall_commits.
Qed.

Lemma executeTx_atomic_witness :
  (exists w',
     executeTx Sample.host Sample.ctx "icacontroller-alice" "icahost" "channel-0"
       [Sample.send; Sample.invalid] Sample.world
       = (Err (sdkerrors.Plain "invalid coins"), w')
     /\ stores w' !!! 0 = Sample.ledger
     /\ managers w' !!! 0 = ["recv_packet"])
  /\ (exists w',
     executeTx Sample.host Sample.ctx "icacontroller-alice" "icahost" "channel-0"
       [Sample.send; Sample.delegate; Sample.send] Sample.world
       = (Err (sdkerrors.Plain "insufficient funds"), w')
     /\ stores w' !!! 0 = Sample.ledger
     /\ managers w' !!! 0 = ["recv_packet"]).
Proof.
  split.
  - eassert (Hrun : _).
    { refine (executeTx_atomic Sample.host Sample.ctx _ _
                "icacontroller-alice" "icahost" "channel-0"
                [Sample.send] Sample.invalid [] _ "connection-0"
                (sdkerrors.Plain "invalid coins") _ Sample.world _ _ _
                _ _ _ _ _ _ _);
        [ split; simpl; lia | reflexivity | reflexivity
        | apply run_outcome; vm_compute; reflexivity
        | apply CacheContext_run
        | apply run_outcome; vm_compute; reflexivity
        | left; reflexivity ]. }
    destruct Hrun as (w' & Hrun & Hstore & Hevents & _).
    exists w'. split; [exact Hrun|]. split; [exact Hstore | exact Hevents].
  - eassert (Hrun : _).
    { refine (executeTx_atomic Sample.host Sample.ctx _ _
                "icacontroller-alice" "icahost" "channel-0"
                [Sample.send] Sample.delegate [Sample.send] _ "connection-0"
                (sdkerrors.Plain "insufficient funds") _ Sample.world _ _ _
                _ _ _ _ _ _ _);
        [ split; simpl; lia | reflexivity | reflexivity
        | apply run_outcome; vm_compute; reflexivity
        | apply CacheContext_run
        | apply run_outcome; vm_compute; reflexivity
        | right; split; [reflexivity | vm_compute; reflexivity] ]. }
    destruct Hrun as (w' & Hrun & Hstore & Hevents & _).
    exists w'. split; [exact Hrun|]. split; [exact Hstore | exact Hevents].
Defined.

(** C8.  A failure to encode the results comes after the commit, and it
    is the only error that does.  First: when every operation of the
    batch has succeeded and [proto.Marshal] fails on the results,
    [executeTx] returns that failure wrapped as "failed to marshal tx
    data", while the multistore of the ambient context holds what the
    cache multistore held at the end of the loop and the ambient event
    manager has received the events of the cache context, after those it
    already had.  Second: whenever [executeTx] returns an error, either
    the ambient multistore and event manager hold what they held before
    the call and the run commits nothing, or the error is the wrapped
    failure of a call of [proto.Marshal], the last call of the run. *)
Theorem executeTx_encode_error (k : Keeper) (ctx : sdk.Context)
    (sourcePort destPort destChannel : string) (msgs : list sdk.Msg) (w : World) :
  live ctx w ->
  (forall (channel : channeltypes.Channel) (connectionID : string)
          (cacheCtx : sdk.Context) (writeCache : M unit)
          (txMsgData : sdk.TxMsgData) (cause : error) (w1 wc w2 : World),
     channelKeeper_GetChannel k (stores w !!! sdk.MultiStoreRef ctx)
       destPort destChannel = Some channel ->
     channeltypes.ConnectionHops channel !! 0 = Some connectionID ->
     authenticateTx k ctx msgs connectionID sourcePort
       (log w [CallGetChannel destPort destChannel]) = (Ok tt, w1) ->
     CacheContext ctx w1 = (Ok (cacheCtx, writeCache), wc) ->
     executeTx_msgs k cacheCtx 0 msgs {| sdk.Data := replicate (length msgs) None |} wc
       = (Ok txMsgData, w2) ->
     proto_Marshal k txMsgData = inl cause ->
     exists w',
       executeTx k ctx sourcePort destPort destChannel msgs w
         = (Err (sdkerrors.Wrap cause "failed to marshal tx data"), w')
       /\ stores w' !!! sdk.MultiStoreRef ctx = stores w2 !!! sdk.MultiStoreRef cacheCtx
       /\ managers w' !!! sdk.EventManagerRef ctx
          = (managers w !!! sdk.EventManagerRef ctx)
            ++ (managers w2 !!! sdk.EventManagerRef cacheCtx)
       /\ trace w' = trace w2
                     ++ [CallEmitEvents (sdk.EventManagerRef ctx)
                           (managers w2 !!! sdk.EventManagerRef cacheCtx);
                         CallWrite (sdk.MultiStoreRef cacheCtx) (sdk.MultiStoreRef ctx);
                         CallMarshal txMsgData])
  /\ (forall (err : error) (w' : World),
     executeTx k ctx sourcePort destPort destChannel msgs w = (Err err, w') ->
     (stores w' !!! sdk.MultiStoreRef ctx = stores w !!! sdk.MultiStoreRef ctx
      /\ managers w' !!! sdk.EventManagerRef ctx = managers w !!! sdk.EventManagerRef ctx
      /\ exists t, trace w' = trace w ++ t
                   /\ Forall (fun c => commits ctx c = false) t)
     \/ (exists (txMsgData : sdk.TxMsgData) (cause : error) (t : list Call),
           proto_Marshal k txMsgData = inl cause
           /\ err = sdkerrors.Wrap cause "failed to marshal tx data"
           /\ trace w' = trace w ++ t ++ [CallMarshal txMsgData])).
Proof.
  intros [Hms Hem]. split.
  - intros channel connectionID cacheCtx writeCache txMsgData cause w1 wc w2
      Hchannel Hhop Hauth Hcache Hloop Hmarshal.
    rewrite (executeTx_authenticate_run k ctx sourcePort destPort destChannel msgs
               channel connectionID w Hchannel Hhop), Hauth.
    rewrite (executeTx_tail_commits k ctx cacheCtx writeCache msgs txMsgData
               w1 wc w2 Hcache Hloop), Hmarshal.
    eexists. split; [reflexivity|]. simpl.
    destruct (authenticateTx_world k ctx msgs connectionID sourcePort
                (log w [CallGetChannel destPort destChannel])) as (ta & Hta & _).
    rewrite Hauth in Hta. simpl in Hta. rewrite log_log in Hta.
    pose proof (executeTx_msgs_confined k cacheCtx msgs 0
                  {| sdk.Data := replicate (length msgs) None |} wc) as Hconfined.
    rewrite Hloop in Hconfined. simpl in Hconfined.
    destruct Hconfined as (Hs & Hm & _ & Hmg & _).
    rewrite CacheContext_run in Hcache. injection Hcache as <- _ <-.
    subst w1. simpl in Hs, Hm, Hmg. rewrite length_app in Hs, Hm. simpl in Hs, Hm.
    split; [|split; [|done]].
    + apply list_lookup_total_insert_eq. lia.
    + rewrite list_lookup_total_insert_eq by lia. f_equal.
      apply lookup_total_eq. rewrite Hmg by (simpl; lia). by apply lookup_app_l.
  - intros err w' Hrun.
    destruct (channelKeeper_GetChannel k (stores w !!! sdk.MultiStoreRef ctx)
                destPort destChannel) as [channel|] eqn:Hchannel.
    2:{ unfold executeTx in Hrun.
        rewrite bind_run, GetChannel_run, Hchannel in Hrun.
        injection Hrun as _ <-. left. repeat split.
        eexists. split; [reflexivity | by repeat constructor]. }
    destruct (channeltypes.ConnectionHops channel !! 0) as [connectionID|] eqn:Hhop.
    2:{ unfold executeTx in Hrun.
        rewrite bind_run, GetChannel_run, Hchannel in Hrun. cbv beta iota in Hrun.
        rewrite bind_run in Hrun. unfold index in Hrun. by rewrite Hhop in Hrun. }
    rewrite (executeTx_authenticate_run k ctx sourcePort destPort destChannel msgs
               channel connectionID w Hchannel Hhop) in Hrun.
    destruct (authenticateTx_world k ctx msgs connectionID sourcePort
                (log w [CallGetChannel destPort destChannel])) as (ta & Hta & HPa).
    destruct (authenticateTx k ctx msgs connectionID sourcePort _)
      as [[[]|autherr|] w1] eqn:Hauth; simpl in Hta; rewrite log_log in Hta;
      [| |done].
    2:{ injection Hrun as <- <-. left. subst w1. repeat split.
        eexists. split; [reflexivity|]. constructor; [done|].
        eapply Forall_impl; [exact HPa|]. intros c. apply authCall_commits. }
    pose proof (CacheContext_run ctx w1) as Hcache.
    set (cacheCtx := {| sdk.MultiStoreRef := length (stores w1);
                        sdk.EventManagerRef := length (managers w1) |}) in *.
    set (wc := {| stores := stores w1 ++ [stores w1 !!! sdk.MultiStoreRef ctx];
                  managers := managers w1 ++ [[]];
                  trace := trace w1 ++ [CallCacheContext ctx] |}) in *.
    pose proof (executeTx_msgs_confined k cacheCtx msgs 0
                  {| sdk.Data := replicate (length msgs) None |} wc) as Hconfined.
    destruct (executeTx_msgs k cacheCtx 0 msgs _ wc) as [[txMsgData|looperr|] w2]
      eqn:Hloop; simpl in Hconfined.
    + rewrite (executeTx_tail_commits k ctx cacheCtx _ msgs txMsgData w1 wc w2
                 Hcache Hloop) in Hrun.
      destruct (proto_Marshal k txMsgData) as [cause|txResponse] eqn:Hmarshal;
        [|done].
      injection Hrun as <- <-. right.
      destruct Hconfined as (_ & _ & _ & _ & t & Ht & _).
      exists txMsgData, cause,
        (CallGetChannel destPort destChannel
           :: ta ++ CallCacheContext ctx
           :: t ++ [CallEmitEvents (sdk.EventManagerRef ctx)
                      (managers w2 !!! sdk.EventManagerRef cacheCtx);
                    CallWrite (sdk.MultiStoreRef cacheCtx) (sdk.MultiStoreRef ctx)]).
      split; [exact Hmarshal|]. split; [reflexivity|].
      cbn [trace]. rewrite Ht. subst wc w1. cbn [trace log].
      repeat (cbn [app]; rewrite <- ?app_assoc). reflexivity.
    + rewrite (executeTx_tail_fails k ctx cacheCtx _ msgs looperr w1 wc w2
                 Hcache Hloop) in Hrun.
      injection Hrun as <- <-. left.
      assert (Hem1 : sdk.EventManagerRef ctx < length (managers w1)) by (by subst w1).
      destruct (branch_confined ctx cacheCtx _ w1 wc w2 Hem1 Hcache Hconfined)
        as (Hstores & Hmanagers & t & Ht & HP).
      subst w1. simpl in Hstores, Hmanagers, Ht.
      split; [|split].
      * apply lookup_total_eq. by apply Hstores.
      * apply lookup_total_eq. by apply Hmanagers.
      * exists (([CallGetChannel destPort destChannel] ++ ta) ++ t). split.
        -- by rewrite Ht, <- !app_assoc.
        -- apply Forall_app. split; [|done]. constructor; [done|].
           eapply Forall_impl; [exact HPa|]. intros c. apply authCall_commits.
    + rewrite bind_run, Hcache in Hrun. cbv beta iota in Hrun.
      by rewrite bind_run, Hloop in Hrun.
Qed.

Lemma executeTx_encode_error_witness :
  (exists w',
     executeTx (Sample.keeper [Sample.MsgSend] Sample.marshalFails) Sample.ctx
       "icacontroller-alice" "icahost" "channel-0" [Sample.send] Sample.world
       = (Err (sdkerrors.Wrap (sdkerrors.Plain "proto: size overflow")
                 "failed to marshal tx data"), w')
     /\ stores w' !!! 0 = <["bank/last" := "5stake to bob"]> Sample.ledger
     /\ managers w' !!! 0 = ["recv_packet"; "transfer"])
  /\ (exists w',
     executeTx (Sample.keeper [Sample.MsgSend] Sample.marshalFails) Sample.ctx
       "icacontroller-alice" "icahost" "channel-0"
       [Sample.send; Sample.invalid] Sample.world
       = (Err (sdkerrors.Plain "invalid coins"), w')
     /\ stores w' !!! 0 = Sample.ledger
     /\ managers w' !!! 0 = ["recv_packet"]).
Proof.
  assert (Hlive : live Sample.ctx Sample.world) by (split; simpl; lia).
  split.
  - destruct (executeTx_encode_error
                (Sample.keeper [Sample.MsgSend] Sample.marshalFails) Sample.ctx
                "icacontroller-alice" "icahost" "channel-0" [Sample.send]
                Sample.world Hlive) as [Hcommit _].
    eassert (Hrun : _).
    { refine (Hcommit _ "connection-0" _ _ _ (sdkerrors.Plain "proto: size overflow")
                _ _ _ _ _ _ _ _ _);
        [ reflexivity | reflexivity
        | apply run_outcome; vm_compute; reflexivity
        | apply CacheContext_run
        | apply run_outcome; vm_compute; reflexivity
        | reflexivity ]. }
    destruct Hrun as (w' & Hrun & Hstore & Hevents & _).
    exists w'. split; [exact Hrun|]. split.
    + etrans; [exact Hstore|]. compute_done.
    + etrans; [exact Hevents|]. compute_done.
  - destruct (executeTx_encode_error
                (Sample.keeper [Sample.MsgSend] Sample.marshalFails) Sample.ctx
                "icacontroller-alice" "icahost" "channel-0"
                [Sample.send; Sample.invalid] Sample.world Hlive) as [_ Honly].
    eassert (Hrun : _).
    { refine (Honly (sdkerrors.Plain "invalid coins") _ _).
      apply run_outcome. vm_compute. reflexivity. }
    eexists. split; [apply run_outcome; vm_compute; reflexivity|].
    destruct Hrun as [(Hstore & Hevents & _)|(txMsgData & cause & t & _ & Herr & _)].
    + split; [exact Hstore | exact Hevents].
    + discriminate Herr.
Defined.

(** ** A packet that executes *)

(** The packet with the "execute" tag and one transfer: the transfer is
    authenticated and run in the cache context, its event and its write
    reach the ambient context, and one result is returned. *)
Example OnRecvPacket_executes :
  fst (OnRecvPacket Sample.host Sample.ctx (Sample.packet [Byte.x01; Byte.x01])
         Sample.world) = Ok [Byte.x0a]
  /\ stores (snd (OnRecvPacket Sample.host Sample.ctx
                    (Sample.packet [Byte.x01; Byte.x01]) Sample.world)) !!! 0
     = <["bank/last" := "5stake to bob"]> Sample.ledger
  /\ managers (snd (OnRecvPacket Sample.host Sample.ctx
                      (Sample.packet [Byte.x01; Byte.x01]) Sample.world)) !!! 0
     = ["recv_packet"; "transfer"].
Proof. repeat split; compute_done. Qed.

(** ** The authenticator, in full *)

(** The inner loop passes only when every signer is the account. *)
Lemma authenticateTx_signers_ok_inv (interchainAccountAddr : string)
    (signers : list sdk.AccAddress) (w : World) :
  fst (authenticateTx_signers interchainAccountAddr signers w) = Ok tt ->
  forall signer, In signer signers ->
    sdk.AccAddress_String signer = interchainAccountAddr.
Proof.
  induction signers as [|s signers' IH]; intros Hok signer Hin; [done|].
  simpl in Hok.
  destruct (String.eqb_spec interchainAccountAddr (sdk.AccAddress_String s))
    as [Heq|Hne]; [|done].
  destruct Hin as [<-|Hin]; [done|]. by apply IH.
Qed.

(** The outer loop passes only when every message passes both checks. *)
Lemma authenticateTx_msgs_ok_inv (allowMsgs : list string)
    (interchainAccountAddr : string) (msgs : list sdk.Msg) (w : World) :
  fst (authenticateTx_msgs allowMsgs interchainAccountAddr msgs w) = Ok tt ->
  forall msg, In msg msgs ->
    types.ContainsMsgType allowMsgs msg = true
    /\ exists signers,
         sdk.GetSigners msg = inr signers
         /\ forall signer, In signer signers ->
              sdk.AccAddress_String signer = interchainAccountAddr.
Proof.
  revert w. induction msgs as [|m msgs' IH]; intros w Hok msg Hin; [done|].
  cbn [authenticateTx_msgs] in Hok.
  rewrite bind_run, ContainsMsgType_run in Hok. cbv beta iota in Hok.
  destruct (types.ContainsMsgType allowMsgs m) eqn:Htype; [|done].
  cbn [negb] in Hok.
  rewrite bind_run, GetSigners_run in Hok. cbv beta iota in Hok.
  destruct (sdk.GetSigners m) as [reason|signers] eqn:Hreturns; [done|].
  rewrite bind_run in Hok.
  pose proof (authenticateTx_signers_world interchainAccountAddr
                signers (log (log w [CallContainsMsgType m])
                             [CallGetSigners m])) as Hworld.
  pose proof (authenticateTx_signers_ok_inv interchainAccountAddr
                signers (log (log w [CallContainsMsgType m])
                             [CallGetSigners m])) as Hsigners.
  destruct (authenticateTx_signers _ _ _) as [[[]| |] w1]; try done.
  simpl in Hworld. subst w1.
  destruct Hin as [<-|Hin].
  - split; [done|]. exists signers. split; [done|]. by apply Hsigners.
  - by apply (IH _ Hok).
Qed.

(** The loops of the authenticator fail with [ErrUnauthorized] only; the
    inner one never panics, the outer one panics with [GetSigners]
    only. *)
Lemma authenticateTx_signers_result (interchainAccountAddr : string)
    (signers : list sdk.AccAddress) (w : World) :
  fst (authenticateTx_signers interchainAccountAddr signers w) = Ok tt
  \/ exists text,
       fst (authenticateTx_signers interchainAccountAddr signers w) =
         Err (sdkerrors.Wrapf sdkerrors.ErrUnauthorized text).
Proof.
  induction signers as [|signer signers' IH]; simpl; [by left|].
  destruct (negb _); [|done]. right. by eexists.
Qed.

Lemma authenticateTx_msgs_result (allowMsgs : list string)
    (interchainAccountAddr : string) (msgs : list sdk.Msg) (w : World) :
  fst (authenticateTx_msgs allowMsgs interchainAccountAddr msgs w) = Ok tt
  \/ (exists text,
        fst (authenticateTx_msgs allowMsgs interchainAccountAddr msgs w) =
          Err (sdkerrors.Wrapf sdkerrors.ErrUnauthorized text))
  \/ exists msg reason,
       In msg msgs
       /\ sdk.GetSigners msg = inl reason
       /\ fst (authenticateTx_msgs allowMsgs interchainAccountAddr msgs w)
          = Panic reason.
Proof.
  revert w. induction msgs as [|msg msgs' IH]; intros w; [by left|].
  cbn [authenticateTx_msgs].
  rewrite bind_run, ContainsMsgType_run. cbv beta iota.
  destruct (negb _); [right; left; by eexists|].
  rewrite bind_run, GetSigners_run. cbv beta iota.
  destruct (sdk.GetSigners msg) as [reason|signers] eqn:Hreturns.
  { right. right. exists msg, reason. split; [by left | done]. }
  rewrite bind_run.
  pose proof (authenticateTx_signers_world interchainAccountAddr
                signers (log (log w [CallContainsMsgType msg])
                             [CallGetSigners msg])) as Hworld.
  destruct (authenticateTx_signers_result interchainAccountAddr
              signers (log (log w [CallContainsMsgType msg])
                           [CallGetSigners msg]))
    as [Hok|[text Hbad]].
  - destruct (authenticateTx_signers _ _ _) as [r w1]. simpl in Hok, Hworld.
    subst.
    destruct (IH (log (log w [CallContainsMsgType msg]) [CallGetSigners msg]))
      as [Hrest|[Hrest|(m & reason & Hin & Hm & Hrest)]].
    + by left.
    + right. by left.
    + right. right. exists m, reason. split; [by right | done].
  - right. left. exists text.
    destruct (authenticateTx_signers _ _ _) as [r w1]. simpl in Hbad. by subst.
Qed.

(** X1.  [authenticateTx] accepts a batch exactly when every message of
    it is of an allowed type, has signers that [GetSigners] returns, and
    has no signer but the interchain account.  The account is resolved
    and the allow-list is not empty; the empty batch and messages
    without signers are accepted. *)
Theorem authenticateTx_accepts_iff (k : Keeper) (ctx : sdk.Context)
    (msgs : list sdk.Msg) (connectionID portID interchainAccountAddr : string)
    (allowMsgs : list string) (w : World) :
  store_GetInterchainAccountAddress k (stores w !!! sdk.MultiStoreRef ctx)
    connectionID portID = Some interchainAccountAddr ->
  store_GetAllowMessages k (stores w !!! sdk.MultiStoreRef ctx) = allowMsgs ->
  allowMsgs <> [] ->
  fst (authenticateTx k ctx msgs connectionID portID w) = Ok tt
  <-> (forall msg, In msg msgs ->
         types.ContainsMsgType allowMsgs msg = true
         /\ exists signers,
              sdk.GetSigners msg = inr signers
              /\ forall signer, In signer signers ->
                   sdk.AccAddress_String signer = interchainAccountAddr).
Proof.
  intros Haddr Hallow Hne.
  rewrite (authenticateTx_loop_run k ctx msgs connectionID portID
             interchainAccountAddr allowMsgs w Haddr Hallow Hne).
  split.
  - apply authenticateTx_msgs_ok_inv.
  - intros Hall.
    rewrite <- (app_nil_r msgs).
    by rewrite (authenticateTx_msgs_app allowMsgs interchainAccountAddr msgs []
                  _ Hall).
Qed.

Lemma authenticateTx_accepts_iff_witness :
  fst (authenticateTx Sample.host Sample.ctx [Sample.send; Sample.delegate]
         "connection-0" "icacontroller-alice" Sample.world) = Ok tt
  /\ fst (authenticateTx Sample.host Sample.ctx [Sample.send; Sample.forged]
            "connection-0" "icacontroller-alice" Sample.world) <> Ok tt
  /\ fst (authenticateTx Sample.host Sample.ctx [Sample.send; Sample.garbled]
            "connection-0" "icacontroller-alice" Sample.world) <> Ok tt.
Proof.
  assert (Hne : [Sample.MsgSend; Sample.MsgDelegate] <> []) by discriminate.
  split; [|split].
  - apply (authenticateTx_accepts_iff Sample.host Sample.ctx
             [Sample.send; Sample.delegate] "connection-0" "icacontroller-alice"
             Sample.ica [Sample.MsgSend; Sample.MsgDelegate] Sample.world);
      [reflexivity | reflexivity | discriminate |].
    intros msg [<-|[<-|[]]]; (split; [reflexivity|]);
      (exists (Sample.signedBy Sample.ica); split; [reflexivity|]);
      intros signer [<-|[]]; reflexivity.
  - intros Hok.
    pose proof (proj1 (authenticateTx_accepts_iff Sample.host Sample.ctx
                         [Sample.send; Sample.forged] "connection-0"
                         "icacontroller-alice" Sample.ica
                         [Sample.MsgSend; Sample.MsgDelegate] Sample.world
                         eq_refl eq_refl Hne) Hok) as Hall.
    destruct (Hall Sample.forged) as (_ & signers & Hreturns & Hsigner);
      [right; by left|].
    injection Hreturns as <-.
    specialize (Hsigner {| sdk.AccAddress_String := Sample.mallory |}
                  (or_introl eq_refl)).
    discriminate Hsigner.
  - intros Hok.
    pose proof (proj1 (authenticateTx_accepts_iff Sample.host Sample.ctx
                         [Sample.send; Sample.garbled] "connection-0"
                         "icacontroller-alice" Sample.ica
                         [Sample.MsgSend; Sample.MsgDelegate] Sample.world
                         eq_refl eq_refl Hne) Hok) as Hall.
    destruct (Hall Sample.garbled) as (_ & signers & Hreturns & _);
      [right; by left|].
    discriminate Hreturns.
Defined.

(** X2.  [authenticateTx] fails in two ways only: every error it returns
    is [ErrInterchainAccountNotFound] or [ErrUnauthorized], wrapped with
    a description. *)
Theorem authenticateTx_error_kinds (k : Keeper) (ctx : sdk.Context)
    (msgs : list sdk.Msg) (connectionID portID : string) (err : error) (w : World) :
  fst (authenticateTx k ctx msgs connectionID portID w) = Err err ->
  exists text,
    err = sdkerrors.Wrapf icatypes.ErrInterchainAccountNotFound text
    \/ err = sdkerrors.Wrapf sdkerrors.ErrUnauthorized text.
Proof.
  destruct (store_GetInterchainAccountAddress k (stores w !!! sdk.MultiStoreRef ctx)
              connectionID portID) as [addr|] eqn:Haddr.
  - destruct (store_GetAllowMessages k (stores w !!! sdk.MultiStoreRef ctx))
      as [|allowMsg allowMsgs'] eqn:Hallow.
    + unfold authenticateTx.
      rewrite bind_run, GetInterchainAccountAddress_run, Haddr.
      rewrite bind_run, GetAllowMessages_run. simpl stores. rewrite Hallow.
      rewrite bind_run. unfold index; simpl. done.
    + rewrite (authenticateTx_loop_run k ctx msgs connectionID portID addr
                 (allowMsg :: allowMsgs') w Haddr Hallow) by done.
      destruct (authenticateTx_msgs_result (allowMsg :: allowMsgs') addr msgs
                  (log w [CallGetInterchainAccountAddress connectionID portID;
                          CallGetAllowMessages]))
        as [Hok|[[text Hbad]|(m & reason & _ & _ & Hpanic)]].
      * rewrite Hok. done.
      * rewrite Hbad. intros [= <-]. exists text. by right.
      * rewrite Hpanic. done.
  - rewrite (authenticateTx_account_not_found_run k ctx msgs connectionID portID w
               Haddr).
    intros [= <-]. eexists. by left.
Qed.

Lemma authenticateTx_error_kinds_witness :
  exists text,
    sdkerrors.Wrapf sdkerrors.ErrUnauthorized
      "message type not allowed: /cosmos.gov.v1beta1.MsgVote"
    = sdkerrors.Wrapf icatypes.ErrInterchainAccountNotFound text
    \/ sdkerrors.Wrapf sdkerrors.ErrUnauthorized
         "message type not allowed: /cosmos.gov.v1beta1.MsgVote"
       = sdkerrors.Wrapf sdkerrors.ErrUnauthorized text.
Proof.
  apply (authenticateTx_error_kinds Sample.host Sample.ctx [Sample.vote]
           "connection-0" "icacontroller-alice" _ Sample.world).
  reflexivity.
Defined.

(** X3.  A message whose [GetSigners] panics makes [authenticateTx]
    panic, when the loop reaches it and its type is allowed.  Let the
    account be resolved and the allow-list not be empty, let every
    message before [msg] be of an allowed type and signed by the
    interchain account only, and let [msg] be of an allowed type while
    its [GetSigners] panics: [authenticateTx] panics with the value of
    that panic and returns no error, the messages after [msg] are not
    examined, and no multistore nor event manager has changed.  The type
    is checked first: a message of a type that is not allowed is refused
    with [ErrUnauthorized] whether its signers decode or not. *)
Theorem authenticateTx_signers_panic (k : Keeper) (ctx : sdk.Context)
    (connectionID portID interchainAccountAddr : string) (allowMsgs : list string)
    (passed : list sdk.Msg) (msg : sdk.Msg) (later : list sdk.Msg)
    (reason : string) (w : World) :
  store_GetInterchainAccountAddress k (stores w !!! sdk.MultiStoreRef ctx)
    connectionID portID = Some interchainAccountAddr ->
  store_GetAllowMessages k (stores w !!! sdk.MultiStoreRef ctx) = allowMsgs ->
  allowMsgs <> [] ->
  (forall m, In m passed ->
     types.ContainsMsgType allowMsgs m = true
     /\ exists signers,
          sdk.GetSigners m = inr signers
          /\ forall signer, In signer signers ->
               sdk.AccAddress_String signer = interchainAccountAddr) ->
  sdk.GetSigners msg = inl reason ->
  (types.ContainsMsgType allowMsgs msg = true ->
   authenticateTx k ctx (passed ++ msg :: later) connectionID portID w =
     (Panic reason,
      log w ([CallGetInterchainAccountAddress connectionID portID;
              CallGetAllowMessages]
             ++ flat_map examined passed ++ examined msg)))
  /\ (types.ContainsMsgType allowMsgs msg = false ->
      authenticateTx k ctx (passed ++ msg :: later) connectionID portID w =
        (Err (sdkerrors.Wrapf sdkerrors.ErrUnauthorized
                ("message type not allowed: " +:+ sdk.MsgTypeURL msg)),
         log w ([CallGetInterchainAccountAddress connectionID portID;
                 CallGetAllowMessages]
                ++ flat_map examined passed ++ [CallContainsMsgType msg]))).
Proof.
  intros Haddr Hallow Hne Hpassed Hpanics.
  rewrite (authenticateTx_loop_run k ctx (passed ++ msg :: later) connectionID portID
             interchainAccountAddr allowMsgs w Haddr Hallow Hne).
  rewrite (authenticateTx_msgs_app allowMsgs interchainAccountAddr passed
             (msg :: later) _ Hpassed).
  rewrite log_log. cbn [authenticateTx_msgs]. split.
  - intros Htype.
    rewrite bind_run, ContainsMsgType_run, Htype. cbv beta iota. cbn [negb].
    rewrite bind_run, GetSigners_run, Hpanics.
    by rewrite !log_log, <- !app_assoc.
  - intros Htype.
    rewrite bind_run, ContainsMsgType_run, Htype. cbv beta iota. cbn [negb].
    unfold fail. by rewrite log_log, <- app_assoc.
Qed.

Lemma authenticateTx_signers_panic_witness :
  authenticateTx Sample.host Sample.ctx
    [Sample.send; Sample.garbled; Sample.forged]
    "connection-0" "icacontroller-alice" Sample.world =
    (Panic "decoding bech32 failed: invalid checksum",
     log Sample.world
       [CallGetInterchainAccountAddress "connection-0" "icacontroller-alice";
        CallGetAllowMessages;
        CallContainsMsgType Sample.send; CallGetSigners Sample.send;
        CallContainsMsgType Sample.garbled; CallGetSigners Sample.garbled]).
Proof.
  assert (Hsend : forall m, In m [Sample.send] ->
            types.ContainsMsgType [Sample.MsgSend; Sample.MsgDelegate] m = true
            /\ exists signers,
                 sdk.GetSigners m = inr signers
                 /\ forall signer, In signer signers ->
                      sdk.AccAddress_String signer = Sample.ica).
  { intros m [<-|[]]. split; [reflexivity|].
    exists (Sample.signedBy Sample.ica). split; [reflexivity|].
    intros signer [<-|[]]. reflexivity. }
  refine (proj1 (authenticateTx_signers_panic Sample.host Sample.ctx
                   "connection-0" "icacontroller-alice" Sample.ica
                   [Sample.MsgSend; Sample.MsgDelegate]
                   [Sample.send] Sample.garbled [Sample.forged]
                   "decoding bech32 failed: invalid checksum" Sample.world
                   _ _ _ Hsend _) _);
    [reflexivity | reflexivity | discriminate | reflexivity | reflexivity].
Defined.

(** X4.  [authenticateTx] only reads: whatever it returns, every
    multistore and every event manager is as before, and the calls it
    makes are the lookup of the account, the read of the allow-list and
    the two checks of the messages. *)
Theorem authenticateTx_reads_only (k : Keeper) (ctx : sdk.Context)
    (msgs : list sdk.Msg) (connectionID portID : string) (w : World) :
  stores (snd (authenticateTx k ctx msgs connectionID portID w)) = stores w
  /\ managers (snd (authenticateTx k ctx msgs connectionID portID w)) = managers w
  /\ exists t,
       trace (snd (authenticateTx k ctx msgs connectionID portID w)) = trace w ++ t
       /\ Forall (fun c => authCall c = true) t.
Proof.
  destruct (authenticateTx_world k ctx msgs connectionID portID w) as (t & Ht & HP).
  rewrite Ht. repeat split. by exists t.
Qed.

(** ** One message *)

(** What [executeMsg] returns and the world it leaves, case by case. *)
Lemma executeMsg_run (k : Keeper) (ctx : sdk.Context) (msg : sdk.Msg) (w : World) :
  executeMsg k ctx msg w =
    match msgRouter_Handler k msg with
    | None => (Err icatypes.ErrInvalidRoute, log w [CallRoute msg])
    | Some handler =>
        match handler (stores w !!! sdk.MultiStoreRef ctx) msg with
        | (s', inl err) =>
            (Err err,
             {| stores := <[sdk.MultiStoreRef ctx := s']> (stores w);
                managers := managers w;
                trace := trace w ++ [CallRoute msg; CallHandler ctx msg] |})
        | (s', inr res) =>
            (Ok (sdk.Result_Data res),
             {| stores := <[sdk.MultiStoreRef ctx := s']> (stores w);
                managers := <[sdk.EventManagerRef ctx :=
                                (managers w !!! sdk.EventManagerRef ctx)
                                ++ sdk.GetEvents res]> (managers w);
                trace := trace w ++ [CallRoute msg; CallHandler ctx msg;
                                     CallEmitEvents (sdk.EventManagerRef ctx)
                                       (sdk.GetEvents res)] |})
        end
    end.
Proof.
  unfold executeMsg. rewrite bind_run, Handler_run. cbv beta iota.
  destruct (msgRouter_Handler k msg) as [handler|]; [|done].
  unfold invoke, EmitEvents, getStore, setStore, EventManager. unfold_M. simpl.
  destruct (handler _ msg) as [s' [err|res]]; simpl; by rewrite <- !app_assoc.
Qed.

(** X5.  A message that fails in [executeMsg] emits nothing: the event
    managers are all as before.  Its error is [ErrInvalidRoute] when the
    router has no handler for it, and then no store has changed either;
    otherwise it is the error of the handler, as the handler returned
    it. *)
Theorem executeMsg_error (k : Keeper) (ctx : sdk.Context) (msg : sdk.Msg)
    (err : error) (w : World) :
  fst (executeMsg k ctx msg w) = Err err ->
  managers (snd (executeMsg k ctx msg w)) = managers w
  /\ ((msgRouter_Handler k msg = None
       /\ err = icatypes.ErrInvalidRoute
       /\ stores (snd (executeMsg k ctx msg w)) = stores w)
      \/ exists handler s',
           msgRouter_Handler k msg = Some handler
           /\ handler (stores w !!! sdk.MultiStoreRef ctx) msg = (s', inl err)).
Proof.
  rewrite executeMsg_run.
  destruct (msgRouter_Handler k msg) as [handler|].
  - destruct (handler _ msg) as [s' [herr|res]] eqn:Hrun; [|done].
    intros [= <-]. split; [done|]. right. by exists handler, s'.
  - intros [= <-]. split; [done|]. by left.
Qed.

Lemma executeMsg_error_witness :
  managers (snd (executeMsg Sample.host Sample.ctx Sample.delegate Sample.world))
    = managers Sample.world
  /\ managers (snd (executeMsg Sample.host Sample.ctx Sample.vote Sample.world))
    = managers Sample.world.
Proof.
  split.
  - refine (proj1 (executeMsg_error Sample.host Sample.ctx Sample.delegate
                     (sdkerrors.Plain "insufficient funds") Sample.world _)).
    reflexivity.
  - refine (proj1 (executeMsg_error Sample.host Sample.ctx Sample.vote
                     icatypes.ErrInvalidRoute Sample.world _)).
    reflexivity.
Defined.

(** X6.  A message that succeeds in [executeMsg] on a live context leaves
    in the multistore of the context what its handler made of it, and
    its events on the event manager of the context, after the events
    that were there; the bytes returned are the data of the result. *)
Theorem executeMsg_success (k : Keeper) (ctx : sdk.Context) (msg : sdk.Msg)
    (handler : sdk.Handler) (s' : sdk.MultiStore) (res : sdk.Result) (w : World) :
  live ctx w ->
  msgRouter_Handler k msg = Some handler ->
  handler (stores w !!! sdk.MultiStoreRef ctx) msg = (s', inr res) ->
  fst (executeMsg k ctx msg w) = Ok (sdk.Result_Data res)
  /\ stores (snd (executeMsg k ctx msg w)) !!! sdk.MultiStoreRef ctx = s'
  /\ managers (snd (executeMsg k ctx msg w)) !!! sdk.EventManagerRef ctx
     = (managers w !!! sdk.EventManagerRef ctx) ++ sdk.GetEvents res.
Proof.
  intros [Hms Hem] Hroute Hrun. rewrite executeMsg_run, Hroute, Hrun. simpl.
  split; [done|]. split; by apply list_lookup_total_insert_eq.
Qed.

Lemma executeMsg_success_witness :
  fst (executeMsg Sample.host Sample.ctx Sample.send Sample.world)
    = Ok [Byte.x4f; Byte.x4b]
  /\ stores (snd (executeMsg Sample.host Sample.ctx Sample.send Sample.world)) !!! 0
     = <["bank/last" := "5stake to bob"]> Sample.ledger
  /\ managers (snd (executeMsg Sample.host Sample.ctx Sample.send Sample.world)) !!! 0
     = ["recv_packet"; "transfer"].
Proof.
  apply (executeMsg_success Sample.host Sample.ctx Sample.send Sample.bank
           (<["bank/last" := "5stake to bob"]> Sample.ledger)
           {| sdk.Result_Data := [Byte.x4f; Byte.x4b];
              sdk.GetEvents := ["transfer"] |} Sample.world);
    [split; simpl; lia | reflexivity | reflexivity].
Defined.

(** ** The batch *)

Lemma setData_run (txMsgData : sdk.TxMsgData) (i : nat) (v : sdk.MsgData)
    (w : World) :
  i < length (sdk.Data txMsgData) ->
  setData txMsgData i v w
    = (Ok {| sdk.Data := <[i := Some v]> (sdk.Data txMsgData) |}, w).
Proof. intros Hi. unfold setData. by destruct (decide _). Qed.

(** One turn of the loop of [executeTx]. *)
Lemma executeTx_msgs_cons_run (k : Keeper) (cacheCtx : sdk.Context) (msg : sdk.Msg)
    (msgs : list sdk.Msg) (i : nat) (txMsgData : sdk.TxMsgData) (w : World) :
  executeTx_msgs k cacheCtx i (msg :: msgs) txMsgData w =
    match sdk.ValidateBasic msg with
    | Some err => (Err err, log w [CallValidateBasic msg])
    | None =>
        match executeMsg k cacheCtx msg (log w [CallValidateBasic msg]) with
        | (Ok msgResponse, w1) =>
            match setData txMsgData i
                    {| sdk.MsgType := sdk.MsgTypeURL msg;
                       sdk.MsgData_Data := msgResponse |} w1 with
            | (Ok txMsgData', w2) =>
                executeTx_msgs k cacheCtx (S i) msgs txMsgData' w2
            | (Err err, w2) => (Err err, w2)
            | (Panic reason, w2) => (Panic reason, w2)
            end
        | (Err err, w1) => (Err err, w1)
        | (Panic reason, w1) => (Panic reason, w1)
        end
    end.
Proof.
  cbn [executeTx_msgs]. rewrite bind_run, ValidateBasic_run.
  destruct (sdk.ValidateBasic msg); [done|].
  rewrite bind_run. destruct (executeMsg k cacheCtx msg _) as [[?| |] ?]; try done.
Qed.

(** The loop of [executeTx], run in a live context from index [i] on a
    slice with room for the messages that remain, computes [deliver] on
    the store of the context: the same error, or else the same store,
    the same events after those the manager had, and the same results in
    the places [i], [i + 1], ... of the slice. *)
Lemma executeTx_msgs_deliver (k : Keeper) (cacheCtx : sdk.Context)
    (msgs : list sdk.Msg) (i : nat) (txMsgData : sdk.TxMsgData) (w : World) :
  live cacheCtx w ->
  length (sdk.Data txMsgData) = i + length msgs ->
  match deliver k (stores w !!! sdk.MultiStoreRef cacheCtx) msgs with
  | inl err => fst (executeTx_msgs k cacheCtx i msgs txMsgData w) = Err err
  | inr (s', events, results) =>
      fst (executeTx_msgs k cacheCtx i msgs txMsgData w)
        = Ok {| sdk.Data := take i (sdk.Data txMsgData) ++ map Some results |}
      /\ stores (snd (executeTx_msgs k cacheCtx i msgs txMsgData w))
           !!! sdk.MultiStoreRef cacheCtx = s'
      /\ managers (snd (executeTx_msgs k cacheCtx i msgs txMsgData w))
           !!! sdk.EventManagerRef cacheCtx
         = (managers w !!! sdk.EventManagerRef cacheCtx) ++ events
  end.
Proof.
  revert i txMsgData w.
  induction msgs as [|msg msgs' IH]; intros i txMsgData w Hlive Hlen.
  - simpl. rewrite !app_nil_r. simpl in Hlen. rewrite take_ge by lia.
    by destruct txMsgData.
  - cbn [deliver].
    destruct (executeTx_msgs k cacheCtx i (msg :: msgs') txMsgData w)
      as [r w'] eqn:Hrun.
    rewrite executeTx_msgs_cons_run in Hrun.
    destruct (sdk.ValidateBasic msg) as [verr|]; [by injection Hrun as <- <-|].
    rewrite executeMsg_run in Hrun. simpl stores in Hrun.
    destruct (msgRouter_Handler k msg) as [handler|];
      [|by injection Hrun as <- <-].
    destruct (handler (stores w !!! sdk.MultiStoreRef cacheCtx) msg)
      as [s1 [herr|res]]; [by injection Hrun as <- <-|].
    simpl length in Hlen. rewrite setData_run in Hrun by lia.
    destruct Hlive as [Hms Hem].
    match type of Hrun with
    | executeTx_msgs _ _ _ _ ?d ?w = _ =>
        pose proof (IH (S i) d w) as IHrun
    end.
    rewrite Hrun in IHrun. simpl in IHrun.
    rewrite !length_insert in IHrun.
    rewrite !list_lookup_total_insert_eq in IHrun by done.
    specialize (IHrun ltac:(split; simpl; rewrite length_insert; lia) ltac:(lia)).
    destruct (deliver k s1 msgs') as [err|[[s' events] results]]; [done|].
    destruct IHrun as (Hdata & Hstore & Hevents).
    split; [|split].
    + rewrite Hdata. f_equal. f_equal.
      rewrite (take_S_r _ _ (Some {| sdk.MsgType := sdk.MsgTypeURL msg;
                                     sdk.MsgData_Data := sdk.Result_Data res |}))
        by (apply list_lookup_insert_eq; lia).
      rewrite take_insert_ge by lia. by rewrite <- app_assoc.
    + exact Hstore.
    + simpl. by rewrite Hevents, <- app_assoc.
Qed.

(** The results of a batch are one for each message, in order, each
    under the type of its message. *)
Lemma deliver_results (k : Keeper) (s s' : sdk.MultiStore) (msgs : list sdk.Msg)
    (events : list sdk.Event) (results : list sdk.MsgData) :
  deliver k s msgs = inr (s', events, results) ->
  map sdk.MsgType results = map sdk.MsgTypeURL msgs.
Proof.
  revert s s' events results.
  induction msgs as [|msg msgs' IH]; intros s s' events results; simpl.
  - by intros [= <- <- <-].
  - destruct (sdk.ValidateBasic msg); [done|].
    destruct (msgRouter_Handler k msg) as [handler|]; [|done].
    destruct (handler s msg) as [s1 [herr|res]]; [done|].
    destruct (deliver k s1 msgs') as [err|[[s2 events2] results2]] eqn:Hrest;
      [done|].
    intros [= <- <- <-]. simpl. f_equal. by eapply IH.
Qed.

(** X7.  The loop of [executeTx] threads the store through the batch: run
    in a live cache context on a fresh slice, it ends with the error
    [deliver] gives on the store of the context, or else it leaves in
    the context the store and the events [deliver] gives (the events
    after those the manager had) and returns the results of [deliver],
    one for each message and none nil. *)
Theorem executeTx_msgs_threads_state (k : Keeper) (cacheCtx : sdk.Context)
    (msgs : list sdk.Msg) (w : World) :
  live cacheCtx w ->
  match deliver k (stores w !!! sdk.MultiStoreRef cacheCtx) msgs with
  | inl err =>
      fst (executeTx_msgs k cacheCtx 0 msgs
             {| sdk.Data := replicate (length msgs) None |} w) = Err err
  | inr (s', events, results) =>
      fst (executeTx_msgs k cacheCtx 0 msgs
             {| sdk.Data := replicate (length msgs) None |} w)
        = Ok {| sdk.Data := map Some results |}
      /\ stores (snd (executeTx_msgs k cacheCtx 0 msgs
                        {| sdk.Data := replicate (length msgs) None |} w))
           !!! sdk.MultiStoreRef cacheCtx = s'
      /\ managers (snd (executeTx_msgs k cacheCtx 0 msgs
                          {| sdk.Data := replicate (length msgs) None |} w))
           !!! sdk.EventManagerRef cacheCtx
         = (managers w !!! sdk.EventManagerRef cacheCtx) ++ events
  end.
Proof.
  intros Hlive.
  apply (executeTx_msgs_deliver k cacheCtx msgs 0
           {| sdk.Data := replicate (length msgs) None |} w Hlive).
  simpl. by rewrite length_replicate.
Qed.

Lemma executeTx_msgs_threads_state_witness :
  fst (executeTx_msgs Ledger.host Sample.ctx 0 [Ledger.deposit; Ledger.close]
         {| sdk.Data := [None; None] |} Sample.world)
    = Ok {| sdk.Data :=
              [Some {| sdk.MsgType := Ledger.MsgDeposit;
                       sdk.MsgData_Data := [Byte.x01] |};
               Some {| sdk.MsgType := Ledger.MsgClose;
                       sdk.MsgData_Data := [Byte.x02] |}] |}
  /\ stores (snd (executeTx_msgs Ledger.host Sample.ctx 0
                    [Ledger.deposit; Ledger.close]
                    {| sdk.Data := [None; None] |} Sample.world)) !!! 0
     = Sample.ledger
  /\ managers (snd (executeTx_msgs Ledger.host Sample.ctx 0
                      [Ledger.deposit; Ledger.close]
                      {| sdk.Data := [None; None] |} Sample.world)) !!! 0
     = ["recv_packet"; "deposit"; "close"; "refund 7stake"].
Proof.
  assert (Hlive : live Sample.ctx Sample.world) by (split; simpl; lia).
  pose proof (executeTx_msgs_threads_state Ledger.host Sample.ctx
                [Ledger.deposit; Ledger.close] Sample.world Hlive) as Hrun.
  assert (Hdeliver :
            deliver Ledger.host (stores Sample.world !!! sdk.MultiStoreRef Sample.ctx)
              [Ledger.deposit; Ledger.close]
            = inr (Sample.ledger, ["deposit"; "close"; "refund 7stake"],
                   [{| sdk.MsgType := Ledger.MsgDeposit;
                       sdk.MsgData_Data := [Byte.x01] |};
                    {| sdk.MsgType := Ledger.MsgClose;
                       sdk.MsgData_Data := [Byte.x02] |}])) by compute_done.
  rewrite Hdeliver in Hrun. exact Hrun.
Defined.

(** X8.  The results of a batch that succeeds keep the order of the
    batch: the slice the loop returns has one entry for each message,
    none of them nil, the entry at each place under the type of the
    message at that place. *)
Theorem executeTx_msgs_results_in_order (k : Keeper) (cacheCtx : sdk.Context)
    (msgs : list sdk.Msg) (txMsgData : sdk.TxMsgData) (w : World) :
  live cacheCtx w ->
  fst (executeTx_msgs k cacheCtx 0 msgs
         {| sdk.Data := replicate (length msgs) None |} w) = Ok txMsgData ->
  map (fun entry => sdk.MsgType <$> entry) (sdk.Data txMsgData)
    = map (fun msg => Some (sdk.MsgTypeURL msg)) msgs.
Proof.
  intros Hlive Hok.
  pose proof (executeTx_msgs_deliver k cacheCtx msgs 0
                {| sdk.Data := replicate (length msgs) None |} w Hlive) as Hrun.
  simpl in Hrun. rewrite length_replicate in Hrun. specialize (Hrun eq_refl).
  destruct (deliver k _ msgs) as [err|[[s' events] results]] eqn:Hdeliver.
  - congruence.
  - destruct Hrun as (Hdata & _).
    rewrite Hdata in Hok. injection Hok as <-. simpl.
    rewrite map_map. simpl.
    rewrite <- (map_map sdk.MsgTypeURL Some), <- (map_map sdk.MsgType Some).
    f_equal. by eapply deliver_results.
Qed.

Lemma executeTx_msgs_results_in_order_witness :
  map (fun entry => sdk.MsgType <$> entry)
      [Some {| sdk.MsgType := Ledger.MsgDeposit; sdk.MsgData_Data := [Byte.x01] |};
       Some {| sdk.MsgType := Ledger.MsgClose; sdk.MsgData_Data := [Byte.x02] |}]
    = map (fun msg => Some (sdk.MsgTypeURL msg)) [Ledger.deposit; Ledger.close].
Proof.
  assert (Hlive : live Sample.ctx Sample.world) by (split; simpl; lia).
  apply (executeTx_msgs_results_in_order Ledger.host Sample.ctx
           [Ledger.deposit; Ledger.close]
           {| sdk.Data :=
                [Some {| sdk.MsgType := Ledger.MsgDeposit;
                         sdk.MsgData_Data := [Byte.x01] |};
                 Some {| sdk.MsgType := Ledger.MsgClose;
                         sdk.MsgData_Data := [Byte.x02] |}] |}
           Sample.world Hlive).
  compute_done.
Defined.

(** ** The executor, end to end *)

(** A batch that passes the authenticator leaves the world with the
    calls of the authenticator added. *)
Lemma authenticateTx_accepts_run (k : Keeper) (ctx : sdk.Context)
    (msgs : list sdk.Msg) (connectionID portID interchainAccountAddr : string)
    (allowMsgs : list string) (w : World) :
  store_GetInterchainAccountAddress k (stores w !!! sdk.MultiStoreRef ctx)
    connectionID portID = Some interchainAccountAddr ->
  store_GetAllowMessages k (stores w !!! sdk.MultiStoreRef ctx) = allowMsgs ->
  allowMsgs <> [] ->
  (forall msg, In msg msgs ->
     types.ContainsMsgType allowMsgs msg = true
     /\ exists signers,
          sdk.GetSigners msg = inr signers
          /\ forall signer, In signer signers ->
               sdk.AccAddress_String signer = interchainAccountAddr) ->
  authenticateTx k ctx msgs connectionID portID w =
    (Ok tt,
     log w ([CallGetInterchainAccountAddress connectionID portID;
             CallGetAllowMessages] ++ flat_map examined msgs)).
Proof.
  intros Haddr Hallow Hne Hall.
  rewrite (authenticateTx_loop_run k ctx msgs connectionID portID
             interchainAccountAddr allowMsgs w Haddr Hallow Hne).
  rewrite <- (app_nil_r msgs) at 1.
  rewrite (authenticateTx_msgs_app allowMsgs interchainAccountAddr msgs [] _ Hall).
  simpl. by rewrite log_log.
Qed.

(** X9.  After the channel lookup and the authenticator, [executeTx] is
    [deliver] on the ambient store, committed or not at all.  Let the
    context be live, the channel found, the account resolved, the
    allow-list not empty and every message pass the authenticator (an
    allowed type, signers that [GetSigners] returns, none but the
    account).  If
    [deliver] fails on the ambient store, [executeTx] returns that error
    and the ambient store and events are as before.  If [deliver]
    succeeds, the ambient store becomes the store it gives, the ambient
    event manager receives its events after those it had, and
    [executeTx] returns what [proto.Marshal] makes of its results. *)
Theorem executeTx_delivers (k : Keeper) (ctx : sdk.Context)
    (sourcePort destPort destChannel : string) (msgs : list sdk.Msg)
    (channel : channeltypes.Channel)
    (connectionID interchainAccountAddr : string) (w : World) :
  live ctx w ->
  channelKeeper_GetChannel k (stores w !!! sdk.MultiStoreRef ctx)
    destPort destChannel = Some channel ->
  channeltypes.ConnectionHops channel !! 0 = Some connectionID ->
  store_GetInterchainAccountAddress k (stores w !!! sdk.MultiStoreRef ctx)
    connectionID sourcePort = Some interchainAccountAddr ->
  store_GetAllowMessages k (stores w !!! sdk.MultiStoreRef ctx) <> [] ->
  (forall msg, In msg msgs ->
     types.ContainsMsgType
       (store_GetAllowMessages k (stores w !!! sdk.MultiStoreRef ctx)) msg = true
     /\ exists signers,
          sdk.GetSigners msg = inr signers
          /\ forall signer, In signer signers ->
               sdk.AccAddress_String signer = interchainAccountAddr) ->
  match deliver k (stores w !!! sdk.MultiStoreRef ctx) msgs with
  | inl err =>
      fst (executeTx k ctx sourcePort destPort destChannel msgs w) = Err err
      /\ stores (snd (executeTx k ctx sourcePort destPort destChannel msgs w))
           !!! sdk.MultiStoreRef ctx = stores w !!! sdk.MultiStoreRef ctx
      /\ managers (snd (executeTx k ctx sourcePort destPort destChannel msgs w))
           !!! sdk.EventManagerRef ctx = managers w !!! sdk.EventManagerRef ctx
  | inr (s', events, results) =>
      fst (executeTx k ctx sourcePort destPort destChannel msgs w)
        = match proto_Marshal k {| sdk.Data := map Some results |} with
          | inl cause => Err (sdkerrors.Wrap cause "failed to marshal tx data")
          | inr txResponse => Ok txResponse
          end
      /\ stores (snd (executeTx k ctx sourcePort destPort destChannel msgs w))
           !!! sdk.MultiStoreRef ctx = s'
      /\ managers (snd (executeTx k ctx sourcePort destPort destChannel msgs w))
           !!! sdk.EventManagerRef ctx
         = (managers w !!! sdk.EventManagerRef ctx) ++ events
  end.
Proof.
  intros [Hms Hem] Hchannel Hhop Haddr Hne Hall.
  destruct (executeTx k ctx sourcePort destPort destChannel msgs w) as [r w']
    eqn:Hrun.
  rewrite (executeTx_authenticate_run k ctx sourcePort destPort destChannel msgs
             channel connectionID w Hchannel Hhop) in Hrun.
  rewrite (authenticateTx_accepts_run k ctx msgs connectionID sourcePort
             interchainAccountAddr _ (log w [CallGetChannel destPort destChannel])
             Haddr eq_refl Hne Hall) in Hrun.
  rewrite log_log in Hrun.
  set (w1 := log w _) in Hrun.
  pose proof (CacheContext_run ctx w1) as Hcache.
  set (cacheCtx := {| sdk.MultiStoreRef := length (stores w1);
                      sdk.EventManagerRef := length (managers w1) |}) in *.
  set (wc := {| stores := stores w1 ++ [stores w1 !!! sdk.MultiStoreRef ctx];
                managers := managers w1 ++ [[]];
                trace := trace w1 ++ [CallCacheContext ctx] |}) in *.
  assert (Hlivec : live cacheCtx wc).
  { split; simpl; rewrite length_app; simpl; lia. }
  assert (Hstorec : stores wc !!! sdk.MultiStoreRef cacheCtx
                    = stores w !!! sdk.MultiStoreRef ctx).
  { simpl. by rewrite list_lookup_total_middle. }
  assert (Heventsc : managers wc !!! sdk.EventManagerRef cacheCtx = []).
  { simpl. by rewrite list_lookup_total_middle. }
  pose proof (executeTx_msgs_deliver k cacheCtx msgs 0
                {| sdk.Data := replicate (length msgs) None |} wc Hlivec)
    as Hdeliver.
  simpl sdk.Data in Hdeliver. rewrite length_replicate in Hdeliver.
  specialize (Hdeliver eq_refl). rewrite Hstorec, Heventsc in Hdeliver.
  pose proof (executeTx_msgs_confined k cacheCtx msgs 0
                {| sdk.Data := replicate (length msgs) None |} wc) as Hconfined.
  destruct (executeTx_msgs k cacheCtx 0 msgs _ wc) as [rl w2] eqn:Hloop.
  simpl in Hconfined.
  destruct (deliver k (stores w !!! sdk.MultiStoreRef ctx) msgs)
    as [err|[[s' events] results]].
  - simpl in Hdeliver. subst rl.
    rewrite (executeTx_tail_fails k ctx cacheCtx _ msgs err w1 wc w2 Hcache Hloop)
      in Hrun.
    injection Hrun as <- <-. split; [done|].
    destruct (branch_confined ctx cacheCtx _ w1 wc w2 Hem Hcache Hconfined)
      as (Hstores & Hmanagers & _).
    split; apply lookup_total_eq; [by apply Hstores | by apply Hmanagers].
  - destruct Hdeliver as (Hdata & Hstore & Hevents). simpl in Hdata. subst rl.
    rewrite (executeTx_tail_commits k ctx cacheCtx _ msgs _ w1 wc w2 Hcache Hloop)
      in Hrun.
    injection Hrun as <- <-. split; [done|].
    destruct Hconfined as (Hs & Hm & _ & Hmg & _).
    simpl in Hs, Hm, Hmg. rewrite length_app in Hs, Hm. simpl in Hs, Hm.
    simpl. split.
    + rewrite list_lookup_total_insert_eq by lia. exact Hstore.
    + rewrite list_lookup_total_insert_eq by lia.
      simpl in Hevents. rewrite Hevents. f_equal.
      apply lookup_total_eq. rewrite Hmg by lia. by apply lookup_app_l.
Qed.

Lemma executeTx_delivers_witness :
  (fst (executeTx Ledger.host Sample.ctx "icacontroller-alice" "icahost" "channel-0"
          [Ledger.deposit; Ledger.close] Sample.world) = Ok [Byte.x0a; Byte.x0a]
   /\ stores (snd (executeTx Ledger.host Sample.ctx "icacontroller-alice" "icahost"
                     "channel-0" [Ledger.deposit; Ledger.close] Sample.world)) !!! 0
      = Sample.ledger
   /\ managers (snd (executeTx Ledger.host Sample.ctx "icacontroller-alice" "icahost"
                       "channel-0" [Ledger.deposit; Ledger.close] Sample.world)) !!! 0
      = ["recv_packet"; "deposit"; "close"; "refund 7stake"])
  /\ (fst (executeTx Ledger.host Sample.ctx "icacontroller-alice" "icahost"
             "channel-0" [Ledger.close; Ledger.deposit] Sample.world)
      = Err (sdkerrors.Plain "nothing to close")
      /\ stores (snd (executeTx Ledger.host Sample.ctx "icacontroller-alice"
                        "icahost" "channel-0" [Ledger.close; Ledger.deposit]
                        Sample.world)) !!! 0
         = Sample.ledger
      /\ managers (snd (executeTx Ledger.host Sample.ctx "icacontroller-alice"
                          "icahost" "channel-0" [Ledger.close; Ledger.deposit]
                          Sample.world)) !!! 0
         = ["recv_packet"]).
Proof.
  assert (Hlive : live Sample.ctx Sample.world) by (split; simpl; lia).
  assert (Hne : store_GetAllowMessages Ledger.host
                  (stores Sample.world !!! sdk.MultiStoreRef Sample.ctx) <> [])
    by discriminate.
  assert (Hpass : forall msg, msg = Ledger.deposit \/ msg = Ledger.close ->
            types.ContainsMsgType
              (store_GetAllowMessages Ledger.host
                 (stores Sample.world !!! sdk.MultiStoreRef Sample.ctx)) msg = true
            /\ exists signers,
                 sdk.GetSigners msg = inr signers
                 /\ forall signer, In signer signers ->
                      sdk.AccAddress_String signer = Sample.ica).
  { intros msg [->| ->]; (split; [reflexivity|]);
      (exists (Sample.signedBy Sample.ica); split; [reflexivity|]);
      intros signer [<-|[]]; reflexivity. }
  split.
  - pose proof (executeTx_delivers Ledger.host Sample.ctx
                  "icacontroller-alice" "icahost" "channel-0"
                  [Ledger.deposit; Ledger.close]
                  {| channeltypes.ConnectionHops := ["connection-0"] |}
                  "connection-0" Sample.ica Sample.world
                  Hlive eq_refl eq_refl eq_refl Hne) as Hrun.
    assert (Hdeliver :
              deliver Ledger.host
                (stores Sample.world !!! sdk.MultiStoreRef Sample.ctx)
                [Ledger.deposit; Ledger.close]
              = inr (Sample.ledger, ["deposit"; "close"; "refund 7stake"],
                     [{| sdk.MsgType := Ledger.MsgDeposit;
                         sdk.MsgData_Data := [Byte.x01] |};
                      {| sdk.MsgType := Ledger.MsgClose;
                         sdk.MsgData_Data := [Byte.x02] |}])) by compute_done.
    rewrite Hdeliver in Hrun. apply Hrun.
    intros msg [<-|[<-|[]]]; apply Hpass; auto.
  - pose proof (executeTx_delivers Ledger.host Sample.ctx
                  "icacontroller-alice" "icahost" "channel-0"
                  [Ledger.close; Ledger.deposit]
                  {| channeltypes.ConnectionHops := ["connection-0"] |}
                  "connection-0" Sample.ica Sample.world
                  Hlive eq_refl eq_refl eq_refl Hne) as Hrun.
    assert (Hdeliver :
              deliver Ledger.host
                (stores Sample.world !!! sdk.MultiStoreRef Sample.ctx)
                [Ledger.close; Ledger.deposit]
              = inl (sdkerrors.Plain "nothing to close")) by compute_done.
    rewrite Hdeliver in Hrun. apply Hrun.
    intros msg [<-|[<-|[]]]; apply Hpass; auto.
Defined.

(** ** The packet handler, end to end *)



(** ** Errors of the executor *)

(** An error of the loop of [executeTx] is the error of one of the
    messages of the batch. *)
Lemma executeTx_msgs_error_origin (k : Keeper) (cacheCtx : sdk.Context)
    (msgs : list sdk.Msg) (i : nat) (txMsgData : sdk.TxMsgData) (err : error)
    (w : World) :
  fst (executeTx_msgs k cacheCtx i msgs txMsgData w) = Err err ->
  exists msg, In msg msgs
    /\ (sdk.ValidateBasic msg = Some err
        \/ (msgRouter_Handler k msg = None /\ err = icatypes.ErrInvalidRoute)
        \/ exists handler s s',
             msgRouter_Handler k msg = Some handler
             /\ handler s msg = (s', inl err)).
Proof.
  revert i txMsgData w.
  induction msgs as [|msg msgs' IH]; intros i txMsgData w; [done|].
  rewrite executeTx_msgs_cons_run.
  destruct (sdk.ValidateBasic msg) as [verr|] eqn:Hvalidate.
  { intros [= <-]. exists msg. split; [by left | by left]. }
  rewrite executeMsg_run.
  destruct (msgRouter_Handler k msg) as [handler|] eqn:Hroute.
  2:{ intros [= <-]. exists msg. split; [by left|]. right. by left. }
  destruct (handler _ msg) as [s' [herr|res]] eqn:Hrun.
  { intros [= <-]. exists msg. split; [by left|]. right. right. by eauto. }
  unfold setData. destruct (decide _); [|done].
  intros Hrest. destruct (IH _ _ _ Hrest) as (m & Hin & Horigin).
  exists m. split; [by right | done].
Qed.

(** X11.  [executeTx] makes up no error of its own beyond three: every
    error it returns is [ErrChannelNotFound], or an error of the
    authenticator ([ErrInterchainAccountNotFound] or [ErrUnauthorized]
    with a description), or, unchanged, the error a message of the batch
    got from its [ValidateBasic] or from its handler, or
    [ErrInvalidRoute] for a message of the batch without a handler, or
    the error of [proto.Marshal] wrapped as "failed to marshal tx
    data". *)
Theorem executeTx_error_origin (k : Keeper) (ctx : sdk.Context)
    (sourcePort destPort destChannel : string) (msgs : list sdk.Msg)
    (err : error) (w : World) :
  fst (executeTx k ctx sourcePort destPort destChannel msgs w) = Err err ->
  err = channeltypes.ErrChannelNotFound
  \/ (exists text,
        err = sdkerrors.Wrapf icatypes.ErrInterchainAccountNotFound text
        \/ err = sdkerrors.Wrapf sdkerrors.ErrUnauthorized text)
  \/ (exists msg, In msg msgs
        /\ (sdk.ValidateBasic msg = Some err
            \/ (msgRouter_Handler k msg = None /\ err = icatypes.ErrInvalidRoute)
            \/ exists handler s s',
                 msgRouter_Handler k msg = Some handler
                 /\ handler s msg = (s', inl err)))
  \/ (exists txMsgData cause,
        proto_Marshal k txMsgData = inl cause
        /\ err = sdkerrors.Wrap cause "failed to marshal tx data").
Proof.
  destruct (channelKeeper_GetChannel k (stores w !!! sdk.MultiStoreRef ctx)
              destPort destChannel) as [channel|] eqn:Hchannel.
  2:{ unfold executeTx. rewrite bind_run, GetChannel_run, Hchannel.
      intros [= <-]. by left. }
  destruct (channeltypes.ConnectionHops channel !! 0) as [connectionID|] eqn:Hhop.
  2:{ unfold executeTx. rewrite bind_run, GetChannel_run, Hchannel. cbv beta iota.
      rewrite bind_run. unfold index. by rewrite Hhop. }
  rewrite (executeTx_authenticate_run k ctx sourcePort destPort destChannel msgs
             channel connectionID w Hchannel Hhop).
  destruct (authenticateTx k ctx msgs connectionID sourcePort
              (log w [CallGetChannel destPort destChannel]))
    as [[[]|autherr|] w1] eqn:Hauth; [| |done].
  2:{ intros [= <-]. right. left.
      destruct (store_GetInterchainAccountAddress k
                  (stores w !!! sdk.MultiStoreRef ctx) connectionID sourcePort)
        as [addr|] eqn:Haddr.
      - destruct (store_GetAllowMessages k (stores w !!! sdk.MultiStoreRef ctx))
          as [|allowMsg allowMsgs'] eqn:Hallow.
        + unfold authenticateTx in Hauth.
          rewrite bind_run, GetInterchainAccountAddress_run in Hauth.
          cbn [stores log] in Hauth. rewrite Haddr in Hauth.
          rewrite bind_run, GetAllowMessages_run in Hauth.
          cbn [stores log] in Hauth. rewrite Hallow in Hauth.
          rewrite bind_run in Hauth. unfold index in Hauth; simpl in Hauth. done.
        + rewrite (authenticateTx_loop_run k ctx msgs connectionID sourcePort addr
                     (allowMsg :: allowMsgs')
                     (log w [CallGetChannel destPort destChannel]) Haddr Hallow)
            in Hauth by done.
          destruct (authenticateTx_msgs_result (allowMsg :: allowMsgs') addr msgs
                      (log (log w [CallGetChannel destPort destChannel])
                         [CallGetInterchainAccountAddress connectionID sourcePort;
                          CallGetAllowMessages]))
            as [Hok|[[text Hbad]|(m & reason & _ & _ & Hpanic)]];
            rewrite Hauth in *; simpl in *; [done| |done].
          injection Hbad as ->. exists text. by right.
      - rewrite (authenticateTx_account_not_found_run k ctx msgs connectionID
                   sourcePort (log w [CallGetChannel destPort destChannel]) Haddr)
          in Hauth.
        injection Hauth as <- _. eexists. by left. }
  pose proof (CacheContext_run ctx w1) as Hcache.
  set (cacheCtx := {| sdk.MultiStoreRef := length (stores w1);
                      sdk.EventManagerRef := length (managers w1) |}) in *.
  set (wc := {| stores := stores w1 ++ [stores w1 !!! sdk.MultiStoreRef ctx];
                managers := managers w1 ++ [[]];
                trace := trace w1 ++ [CallCacheContext ctx] |}) in *.
  pose proof (executeTx_msgs_error_origin k cacheCtx msgs 0
                {| sdk.Data := replicate (length msgs) None |}) as Horigin.
  destruct (executeTx_msgs k cacheCtx 0 msgs
              {| sdk.Data := replicate (length msgs) None |} wc)
    as [[txMsgData|looperr|] w2] eqn:Hloop.
  - rewrite (executeTx_tail_commits k ctx cacheCtx _ msgs txMsgData w1 wc w2
               Hcache Hloop).
    simpl. destruct (proto_Marshal k txMsgData) as [cause|] eqn:Hmarshal; [|done].
    intros [= <-]. right. right. right. by exists txMsgData, cause.
  - rewrite (executeTx_tail_fails k ctx cacheCtx _ msgs looperr w1 wc w2
               Hcache Hloop).
    intros [= <-]. right. right. left.
    apply (Horigin looperr wc). by rewrite Hloop.
  - rewrite bind_run, Hcache. cbv beta iota. by rewrite bind_run, Hloop.
Qed.

Lemma executeTx_error_origin_witness :
  sdkerrors.Plain "insufficient funds" = channeltypes.ErrChannelNotFound
  \/ (exists text,
        sdkerrors.Plain "insufficient funds"
          = sdkerrors.Wrapf icatypes.ErrInterchainAccountNotFound text
        \/ sdkerrors.Plain "insufficient funds"
          = sdkerrors.Wrapf sdkerrors.ErrUnauthorized text)
  \/ (exists msg, In msg [Sample.send; Sample.delegate]
        /\ (sdk.ValidateBasic msg = Some (sdkerrors.Plain "insufficient funds")
            \/ (msgRouter_Handler Sample.host msg = None
                /\ sdkerrors.Plain "insufficient funds" = icatypes.ErrInvalidRoute)
            \/ exists handler s s',
                 msgRouter_Handler Sample.host msg = Some handler
                 /\ handler s msg = (s', inl (sdkerrors.Plain "insufficient funds"))))
  \/ (exists txMsgData cause,
        proto_Marshal Sample.host txMsgData = inl cause
        /\ sdkerrors.Plain "insufficient funds"
           = sdkerrors.Wrap cause "failed to marshal tx data").
Proof.
  apply (executeTx_error_origin Sample.host Sample.ctx
           "icacontroller-alice" "icahost" "channel-0"
           [Sample.send; Sample.delegate] (sdkerrors.Plain "insufficient funds")
           Sample.world).
  vm_compute. reflexivity.
Defined.

(** ** The packet handler, every outcome *)

(** Once the envelope is decoded, the batch is deserialized into a
    batch that is not empty and [GetSigners] has returned for its first
    message, the type tag decides. *)
Lemma OnRecvPacket_batch_run (k : Keeper) (ctx : sdk.Context)
    (packet : channeltypes.Packet) (data : icatypes.InterchainAccountPacketData)
    (msg0 : sdk.Msg) (msgs : list sdk.Msg) (signers : list sdk.AccAddress)
    (w : World) :
  ModuleCdc_UnmarshalJSON k (channeltypes.GetData packet) = inr data ->
  cdc_DeserializeCosmosTx k (icatypes.Data data) = inr (msg0 :: msgs) ->
  sdk.GetSigners msg0 = inr signers ->
  OnRecvPacket k ctx packet w =
    if Z.eqb (icatypes.Type_ data) icatypes.EXECUTE_TX
    then executeTx k ctx (channeltypes.SourcePort packet)
           (channeltypes.DestinationPort packet)
           (channeltypes.DestinationChannel packet) (msg0 :: msgs)
           (log w [CallUnmarshalJSON (channeltypes.GetData packet);
                   CallDeserializeCosmosTx (icatypes.Data data);
                   CallGetSigners msg0;
                   CallDeserializeCosmosTx (icatypes.Data data)])
    else (Err icatypes.ErrUnknownDataType,
          log w [CallUnmarshalJSON (channeltypes.GetData packet);
                 CallDeserializeCosmosTx (icatypes.Data data);
                 CallGetSigners msg0]).
Proof.
  intros Henv Hbatch Hsigners. unfold OnRecvPacket.
  rewrite bind_run, UnmarshalJSON_run, Henv.
  rewrite bind_run, DeserializeCosmosTx_run, Hbatch.
  rewrite bind_run. unfold index; simpl. unfold ret at 1.
  rewrite bind_run, GetSigners_run, Hsigners.
  destruct (Z.eqb (icatypes.Type_ data) icatypes.EXECUTE_TX).
  - rewrite bind_run, DeserializeCosmosTx_run, Hbatch. cbv beta iota.
    rewrite bind_run, !log_log. simpl app.
    by destruct (executeTx _ _ _ _ _ _ _) as [[?| |] ?].
  - unfold fail. by rewrite !log_log.
Qed.



(** [executeTx], whatever it returns: either the ambient context is as
    it was, nothing has been committed and no bytes are returned, or the
    run ends with the commit and the encoding of the results. *)
Lemma executeTx_commit_cases (k : Keeper) (ctx : sdk.Context)
    (sourcePort destPort destChannel : string) (msgs : list sdk.Msg) (w : World) :
  live ctx w ->
  (stores (snd (executeTx k ctx sourcePort destPort destChannel msgs w))
     !!! sdk.MultiStoreRef ctx = stores w !!! sdk.MultiStoreRef ctx
   /\ managers (snd (executeTx k ctx sourcePort destPort destChannel msgs w))
        !!! sdk.EventManagerRef ctx = managers w !!! sdk.EventManagerRef ctx
   /\ (exists t,
         trace (snd (executeTx k ctx sourcePort destPort destChannel msgs w))
           = trace w ++ t
         /\ Forall (fun c => commits ctx c = false) t)
   /\ forall txResponse,
        fst (executeTx k ctx sourcePort destPort destChannel msgs w) <> Ok txResponse)
  \/ (exists (txMsgData : sdk.TxMsgData) (events : list sdk.Event) (cms : nat)
             (t : list Call),
        trace (snd (executeTx k ctx sourcePort destPort destChannel msgs w))
          = trace w ++ t ++ [CallEmitEvents (sdk.EventManagerRef ctx) events;
                             CallWrite cms (sdk.MultiStoreRef ctx);
                             CallMarshal txMsgData]
        /\ fst (executeTx k ctx sourcePort destPort destChannel msgs w)
           = match proto_Marshal k txMsgData with
             | inl cause => Err (sdkerrors.Wrap cause "failed to marshal tx data")
             | inr txResponse => Ok txResponse
             end).
Proof.
  intros [Hms Hem].
  destruct (channelKeeper_GetChannel k (stores w !!! sdk.MultiStoreRef ctx)
              destPort destChannel) as [channel|] eqn:Hchannel.
  2:{ unfold executeTx. rewrite bind_run, GetChannel_run, Hchannel.
      left. repeat split; [|done].
      eexists. split; [reflexivity | by repeat constructor]. }
  destruct (channeltypes.ConnectionHops channel !! 0) as [connectionID|] eqn:Hhop.
  2:{ unfold executeTx. rewrite bind_run, GetChannel_run, Hchannel. cbv beta iota.
      rewrite bind_run. unfold index. rewrite Hhop.
      left. repeat split; [|done].
      eexists. split; [reflexivity | by repeat constructor]. }
  rewrite (executeTx_authenticate_run k ctx sourcePort destPort destChannel msgs
             channel connectionID w Hchannel Hhop).
  destruct (authenticateTx_world k ctx msgs connectionID sourcePort
              (log w [CallGetChannel destPort destChannel])) as (ta & Hta & HPa).
  assert (Hquiet : Forall (fun c => commits ctx c = false)
                     (CallGetChannel destPort destChannel :: ta)).
  { constructor; [done|]. eapply Forall_impl; [exact HPa|].
    intros c. apply authCall_commits. }
  destruct (authenticateTx k ctx msgs connectionID sourcePort _)
    as [[[]|autherr|reason] w1] eqn:Hauth; simpl in Hta; rewrite log_log in Hta.
  2,3: left; subst w1; repeat split; [|done]; eexists; split; [reflexivity|done].
  pose proof (CacheContext_run ctx w1) as Hcache.
  set (cacheCtx := {| sdk.MultiStoreRef := length (stores w1);
                      sdk.EventManagerRef := length (managers w1) |}) in *.
  set (wc := {| stores := stores w1 ++ [stores w1 !!! sdk.MultiStoreRef ctx];
                managers := managers w1 ++ [[]];
                trace := trace w1 ++ [CallCacheContext ctx] |}) in *.
  pose proof (executeTx_msgs_confined k cacheCtx msgs 0
                {| sdk.Data := replicate (length msgs) None |} wc) as Hconfined.
  assert (Hem1 : sdk.EventManagerRef ctx < length (managers w1)) by (by subst w1).
  destruct (executeTx_msgs k cacheCtx 0 msgs
              {| sdk.Data := replicate (length msgs) None |} wc)
    as [[txMsgData|looperr|reason] w2] eqn:Hloop; simpl in Hconfined.
  - rewrite (executeTx_tail_commits k ctx cacheCtx _ msgs txMsgData w1 wc w2
               Hcache Hloop).
    right. destruct Hconfined as (_ & _ & _ & _ & t & Ht & _).
    exists txMsgData, (managers w2 !!! sdk.EventManagerRef cacheCtx),
      (sdk.MultiStoreRef cacheCtx),
      (CallGetChannel destPort destChannel :: ta ++ CallCacheContext ctx :: t).
    split; [|done]. cbn [snd trace]. rewrite Ht. subst wc w1. cbn [trace log].
    repeat (cbn [app]; rewrite <- ?app_assoc). reflexivity.
  - rewrite (executeTx_tail_fails k ctx cacheCtx _ msgs looperr w1 wc w2
               Hcache Hloop).
    left.
    destruct (branch_confined ctx cacheCtx _ w1 wc w2 Hem1 Hcache Hconfined)
      as (Hstores & Hmanagers & t & Ht & HP).
    subst w1. simpl in Hstores, Hmanagers, Ht.
    split; [|split; [|split; [|done]]].
    + apply lookup_total_eq. by apply Hstores.
    + apply lookup_total_eq. by apply Hmanagers.
    + exists ((CallGetChannel destPort destChannel :: ta) ++ t). split.
      * simpl. rewrite Ht. simpl. by rewrite <- !app_assoc.
      * by apply Forall_app.
  - rewrite bind_run, Hcache. cbv beta iota. rewrite bind_run, Hloop.
    left.
    destruct (branch_confined ctx cacheCtx _ w1 wc w2 Hem1 Hcache Hconfined)
      as (Hstores & Hmanagers & t & Ht & HP).
    subst w1. simpl in Hstores, Hmanagers, Ht.
    split; [|split; [|split; [|done]]].
    + apply lookup_total_eq. by apply Hstores.
    + apply lookup_total_eq. by apply Hmanagers.
    + exists ((CallGetChannel destPort destChannel :: ta) ++ t). split.
      * simpl. rewrite Ht. simpl. by rewrite <- !app_assoc.
      * by apply Forall_app.
Qed.

(** X13.  A packet is committed whole or not at all.  Whatever
    [OnRecvPacket] does on a packet (returns bytes, returns an error,
    panics), one of two things holds.  Either the multistore and the
    event manager of the ambient context hold what they held before, the
    run contains no write into that multistore and no emission on that
    event manager, and no bytes are returned.  Or the run ends with the
    emission of the events of the cache context on the ambient event
    manager, the write of a cache multistore into the ambient one and
    the encoding of the results, and [OnRecvPacket] returns the bytes of
    that encoding, or its error wrapped as "failed to marshal tx data".
    So bytes are returned only after a commit, and an error other than
    that of the encoder, like a panic, leaves the chain as it was. *)
Theorem OnRecvPacket_all_or_nothing (k : Keeper) (ctx : sdk.Context)
    (packet : channeltypes.Packet) (w : World) :
  live ctx w ->
  (stores (snd (OnRecvPacket k ctx packet w)) !!! sdk.MultiStoreRef ctx
     = stores w !!! sdk.MultiStoreRef ctx
   /\ managers (snd (OnRecvPacket k ctx packet w)) !!! sdk.EventManagerRef ctx
      = managers w !!! sdk.EventManagerRef ctx
   /\ (exists t,
         trace (snd (OnRecvPacket k ctx packet w)) = trace w ++ t
         /\ Forall (fun c => commits ctx c = false) t)
   /\ forall txResponse, fst (OnRecvPacket k ctx packet w) <> Ok txResponse)
  \/ (exists (txMsgData : sdk.TxMsgData) (events : list sdk.Event) (cms : nat)
             (t : list Call),
        trace (snd (OnRecvPacket k ctx packet w))
          = trace w ++ t ++ [CallEmitEvents (sdk.EventManagerRef ctx) events;
                             CallWrite cms (sdk.MultiStoreRef ctx);
                             CallMarshal txMsgData]
        /\ fst (OnRecvPacket k ctx packet w)
           = match proto_Marshal k txMsgData with
             | inl cause => Err (sdkerrors.Wrap cause "failed to marshal tx data")
             | inr txResponse => Ok txResponse
             end).
Proof.
  intros Hlive.
  destruct (ModuleCdc_UnmarshalJSON k (channeltypes.GetData packet))
    as [cause|data] eqn:Henv.
  { rewrite (OnRecvPacket_malformed_run k ctx packet cause w Henv).
    left. repeat split; [|done].
    eexists. split; [reflexivity | by repeat constructor]. }
  destruct (cdc_DeserializeCosmosTx k (icatypes.Data data)) as [err|msgs] eqn:Hbatch.
  { rewrite (OnRecvPacket_batch_error_run k ctx packet data err w Henv Hbatch).
    left. repeat split; [|done].
    eexists. split; [reflexivity | by repeat constructor]. }
  destruct msgs as [|msg0 msgs].
  { unfold OnRecvPacket.
    rewrite bind_run, UnmarshalJSON_run, Henv.
    rewrite bind_run, DeserializeCosmosTx_run, Hbatch.
    rewrite bind_run. unfold index; simpl.
    left. repeat split; [|done].
    eexists. split; [by rewrite <- app_assoc | by repeat constructor]. }
  destruct (sdk.GetSigners msg0) as [reason|signers] eqn:Hsigners.
  { rewrite (OnRecvPacket_first_signers_panic_run k ctx packet data msg0 msgs
               reason w Henv Hbatch Hsigners).
    left. repeat split; [|done].
    eexists. split; [reflexivity | by repeat constructor]. }
  rewrite (OnRecvPacket_batch_run k ctx packet data msg0 msgs signers w
             Henv Hbatch Hsigners).
  destruct (Z.eqb (icatypes.Type_ data) icatypes.EXECUTE_TX).
  2:{ left. repeat split; [|done].
      eexists. split; [reflexivity | by repeat constructor]. }
  set (w0 := log w [CallUnmarshalJSON (channeltypes.GetData packet);
                    CallDeserializeCosmosTx (icatypes.Data data);
                    CallGetSigners msg0;
                    CallDeserializeCosmosTx (icatypes.Data data)]).
  assert (Hlive0 : live ctx w0) by exact Hlive.
  destruct (executeTx_commit_cases k ctx (channeltypes.SourcePort packet)
              (channeltypes.DestinationPort packet)
              (channeltypes.DestinationChannel packet) (msg0 :: msgs) w0 Hlive0)
    as [(Hstore & Hevents & (t & Ht & HP) & Hnone)
       |(txMsgData & events & cms & t & Ht & Hresult)].
  - left. split; [exact Hstore|]. split; [exact Hevents|]. split; [|exact Hnone].
    eexists. split.
    + rewrite Ht. subst w0. cbn [trace log]. by rewrite <- app_assoc.
    + apply Forall_app. split; [by repeat constructor | exact HP].
  - right.
    exists txMsgData, events, cms,
      (CallUnmarshalJSON (channeltypes.GetData packet)
         :: CallDeserializeCosmosTx (icatypes.Data data)
         :: CallGetSigners msg0
         :: CallDeserializeCosmosTx (icatypes.Data data) :: t).
    split; [|exact Hresult].
    rewrite Ht. subst w0. cbn [trace log]. by rewrite <- app_assoc.
Qed.

Lemma OnRecvPacket_all_or_nothing_witness :
  fst (OnRecvPacket Sample.host Sample.ctx
         (Sample.packet [Byte.x01; Byte.x01; Byte.x03]) Sample.world)
    = Err (sdkerrors.Plain "invalid coins")
  /\ stores (snd (OnRecvPacket Sample.host Sample.ctx
                    (Sample.packet [Byte.x01; Byte.x01; Byte.x03]) Sample.world))
       !!! 0 = Sample.ledger
  /\ managers (snd (OnRecvPacket Sample.host Sample.ctx
                      (Sample.packet [Byte.x01; Byte.x01; Byte.x03]) Sample.world))
       !!! 0 = ["recv_packet"].
Proof.
  assert (Hlive : live Sample.ctx Sample.world) by (split; simpl; lia).
  assert (Hrun : fst (OnRecvPacket Sample.host Sample.ctx
                        (Sample.packet [Byte.x01; Byte.x01; Byte.x03]) Sample.world)
                 = Err (sdkerrors.Plain "invalid coins"))
    by (vm_compute; reflexivity).
  split; [exact Hrun|].
  destruct (OnRecvPacket_all_or_nothing Sample.host Sample.ctx
              (Sample.packet [Byte.x01; Byte.x01; Byte.x03]) Sample.world Hlive)
    as [(Hstore & Hevents & _)|(txMsgData & events & cms & t & _ & Hresult)].
  - split; [exact Hstore | exact Hevents].
  - rewrite Hrun in Hresult. exfalso.
    destruct (proto_Marshal Sample.host txMsgData); discriminate Hresult.
Defined.

(** ** Handlers run on authenticated batches only *)

(** The handlers the loop of [executeTx] calls are called on the cache
    context, for messages of the batch. *)
Lemma executeTx_msgs_handler_calls (k : Keeper) (cacheCtx : sdk.Context)
    (msgs : list sdk.Msg) (i : nat) (txMsgData : sdk.TxMsgData) (w : World) :
  exists t,
    trace (snd (executeTx_msgs k cacheCtx i msgs txMsgData w)) = trace w ++ t
    /\ forall c m, In (CallHandler c m) t -> c = cacheCtx /\ In m msgs.
Proof.
  revert i txMsgData w.
  induction msgs as [|msg msgs' IH]; intros i txMsgData w.
  { exists []. split; [by rewrite app_nil_r | by intros c m []]. }
  rewrite executeTx_msgs_cons_run.
  destruct (sdk.ValidateBasic msg) as [err|].
  { exists [CallValidateBasic msg]. split; [done|].
    intros c m [Hin|[]]. discriminate Hin. }
  rewrite executeMsg_run.
  destruct (msgRouter_Handler k msg) as [handler|].
  2:{ exists [CallValidateBasic msg; CallRoute msg]. split.
      - simpl. by rewrite <- app_assoc.
      - intros c m [Hin|[Hin|[]]]; discriminate Hin. }
  destruct (handler _ msg) as [s' [err|res]].
  { exists [CallValidateBasic msg; CallRoute msg; CallHandler cacheCtx msg]. split.
    - simpl. by rewrite <- app_assoc.
    - intros c m [Hin|[Hin|[Hin|[]]]]; try discriminate Hin.
      injection Hin as <- <-. split; [done | by left]. }
  unfold setData. destruct (decide _).
  - unfold ret.
    match goal with
    | |- context [executeTx_msgs k cacheCtx (S i) msgs' ?d ?w1] =>
        destruct (IH (S i) d w1) as (t & Ht & Hcalls)
    end.
    exists ([CallValidateBasic msg; CallRoute msg; CallHandler cacheCtx msg;
             CallEmitEvents (sdk.EventManagerRef cacheCtx) (sdk.GetEvents res)] ++ t).
    split.
    + rewrite Ht. simpl. by rewrite <- !app_assoc.
    + intros c m Hin. apply in_app_or in Hin as [Hin|Hin].
      * destruct Hin as [Hin|[Hin|[Hin|[Hin|[]]]]]; try discriminate Hin.
        injection Hin as <- <-. split; [done | by left].
      * destruct (Hcalls c m Hin) as [-> Hm]. split; [done | by right].
  - exists [CallValidateBasic msg; CallRoute msg; CallHandler cacheCtx msg;
            CallEmitEvents (sdk.EventManagerRef cacheCtx) (sdk.GetEvents res)].
    split.
    + simpl. by rewrite <- !app_assoc.
    + intros c m [Hin|[Hin|[Hin|[Hin|[]]]]]; try discriminate Hin.
      injection Hin as <- <-. split; [done | by left].
Qed.

(** X14.  No handler runs for a batch that is not authenticated.  A call
    of a handler made by [executeTx] is the call for a message of the
    batch, on the cache context (the multistore and the event manager
    allocated by [CacheContext], never those of the ambient context);
    and when there is one, the channel was found, the interchain account
    was resolved, and every message of the batch, those after the one
    handled included, is of an allowed type, has signers that
    [GetSigners] returned and has no signer but the account. *)
Theorem executeTx_runs_authenticated_only (k : Keeper) (ctx : sdk.Context)
    (sourcePort destPort destChannel : string) (msgs : list sdk.Msg) (w : World)
    (cacheCtx : sdk.Context) (msg : sdk.Msg) :
  In (CallHandler cacheCtx msg)
     (trace (snd (executeTx k ctx sourcePort destPort destChannel msgs w))) ->
  In (CallHandler cacheCtx msg) (trace w)
  \/ (In msg msgs
      /\ cacheCtx = {| sdk.MultiStoreRef := length (stores w);
                       sdk.EventManagerRef := length (managers w) |}
      /\ exists channel connectionID interchainAccountAddr,
           channelKeeper_GetChannel k (stores w !!! sdk.MultiStoreRef ctx)
             destPort destChannel = Some channel
           /\ channeltypes.ConnectionHops channel !! 0 = Some connectionID
           /\ store_GetInterchainAccountAddress k
                (stores w !!! sdk.MultiStoreRef ctx) connectionID sourcePort
              = Some interchainAccountAddr
           /\ forall m, In m msgs ->
                types.ContainsMsgType
                  (store_GetAllowMessages k (stores w !!! sdk.MultiStoreRef ctx)) m
                  = true
                /\ exists signers,
                     sdk.GetSigners m = inr signers
                     /\ forall signer, In signer signers ->
                          sdk.AccAddress_String signer = interchainAccountAddr).
Proof.
  destruct (channelKeeper_GetChannel k (stores w !!! sdk.MultiStoreRef ctx)
              destPort destChannel) as [channel|] eqn:Hchannel.
  2:{ unfold executeTx. rewrite bind_run, GetChannel_run, Hchannel.
      cbn [snd trace log]. intros Hin. apply in_app_or in Hin as [Hin|[Hin|[]]].
      - by left.
      - discriminate Hin. }
  destruct (channeltypes.ConnectionHops channel !! 0) as [connectionID|] eqn:Hhop.
  2:{ unfold executeTx. rewrite bind_run, GetChannel_run, Hchannel. cbv beta iota.
      rewrite bind_run. unfold index. rewrite Hhop.
      cbn [snd trace log]. intros Hin. apply in_app_or in Hin as [Hin|[Hin|[]]].
      - by left.
      - discriminate Hin. }
  rewrite (executeTx_authenticate_run k ctx sourcePort destPort destChannel msgs
             channel connectionID w Hchannel Hhop).
  destruct (authenticateTx_world k ctx msgs connectionID sourcePort
              (log w [CallGetChannel destPort destChannel])) as (ta & Hta & HPa).
  assert (Hnone : ~ In (CallHandler cacheCtx msg)
                      (CallGetChannel destPort destChannel :: ta)).
  { intros [Hin|Hin]; [discriminate Hin|].
    pose proof (proj1 (List.Forall_forall _ _) HPa _ Hin) as Hcall.
    discriminate Hcall. }
  destruct (authenticateTx k ctx msgs connectionID sourcePort _)
    as [[[]|autherr|reason] w1] eqn:Hauth; simpl in Hta; rewrite log_log in Hta.
  2,3: subst w1; cbn [snd trace log]; intros Hin;
       apply in_app_or in Hin as [Hin|Hin]; [by left | by destruct Hnone].
  (* the batch is authenticated *)
  assert (Hpass : exists interchainAccountAddr,
            store_GetInterchainAccountAddress k
              (stores w !!! sdk.MultiStoreRef ctx) connectionID sourcePort
              = Some interchainAccountAddr
            /\ forall m, In m msgs ->
                 types.ContainsMsgType
                   (store_GetAllowMessages k (stores w !!! sdk.MultiStoreRef ctx)) m
                   = true
                 /\ exists signers,
                      sdk.GetSigners m = inr signers
                      /\ forall signer, In signer signers ->
                           sdk.AccAddress_String signer = interchainAccountAddr).
  { destruct (store_GetInterchainAccountAddress k
                (stores w !!! sdk.MultiStoreRef ctx) connectionID sourcePort)
      as [addr|] eqn:Haddr.
    2:{ by rewrite (authenticateTx_account_not_found_run k ctx msgs connectionID
                      sourcePort (log w [CallGetChannel destPort destChannel]) Haddr)
          in Hauth. }
    exists addr. split; [done|].
    destruct (store_GetAllowMessages k (stores w !!! sdk.MultiStoreRef ctx))
      as [|allowMsg allowMsgs'] eqn:Hallow.
    { unfold authenticateTx in Hauth.
      rewrite bind_run, GetInterchainAccountAddress_run in Hauth.
      cbn [stores log] in Hauth. rewrite Haddr in Hauth.
      rewrite bind_run, GetAllowMessages_run in Hauth.
      cbn [stores log] in Hauth. rewrite Hallow in Hauth.
      rewrite bind_run in Hauth. unfold index in Hauth; simpl in Hauth. done. }
    rewrite (authenticateTx_loop_run k ctx msgs connectionID sourcePort addr
               (allowMsg :: allowMsgs')
               (log w [CallGetChannel destPort destChannel]) Haddr Hallow)
      in Hauth by done.
    eapply authenticateTx_msgs_ok_inv. by rewrite Hauth. }
  pose proof (CacheContext_run ctx w1) as Hcache.
  set (cc := {| sdk.MultiStoreRef := length (stores w1);
                sdk.EventManagerRef := length (managers w1) |}) in *.
  set (wc := {| stores := stores w1 ++ [stores w1 !!! sdk.MultiStoreRef ctx];
                managers := managers w1 ++ [[]];
                trace := trace w1 ++ [CallCacheContext ctx] |}) in *.
  destruct (executeTx_msgs_handler_calls k cc msgs 0
              {| sdk.Data := replicate (length msgs) None |} wc)
    as (tl & Htl & Hcalls).
  assert (Hbranch : forall tail,
            (forall c m, ~ In (CallHandler c m) tail) ->
            In (CallHandler cacheCtx msg)
               (trace (snd (executeTx_msgs k cc 0 msgs
                              {| sdk.Data := replicate (length msgs) None |} wc))
                ++ tail) ->
            In (CallHandler cacheCtx msg) (trace w)
            \/ (In msg msgs
                /\ cacheCtx = {| sdk.MultiStoreRef := length (stores w);
                                 sdk.EventManagerRef := length (managers w) |}
                /\ exists channel0 connectionID0 interchainAccountAddr,
                     Some channel = Some channel0
                     /\ channeltypes.ConnectionHops channel0 !! 0 = Some connectionID0
                     /\ store_GetInterchainAccountAddress k
                          (stores w !!! sdk.MultiStoreRef ctx) connectionID0 sourcePort
                        = Some interchainAccountAddr
                     /\ forall m, In m msgs ->
                          types.ContainsMsgType
                            (store_GetAllowMessages k
                               (stores w !!! sdk.MultiStoreRef ctx)) m = true
                          /\ exists signers,
                               sdk.GetSigners m = inr signers
                               /\ forall signer, In signer signers ->
                                    sdk.AccAddress_String signer = interchainAccountAddr)).
  { intros tail Htail Hin. rewrite Htl in Hin. subst wc w1. cbn [trace log] in Hin.
    rewrite <- !app_assoc in Hin.
    apply in_app_or in Hin as [Hin|Hin]; [by left|].
    apply in_app_or in Hin as [Hin|Hin];
      [destruct Hin as [Hin|[]]; discriminate Hin|].
    apply in_app_or in Hin as [Hin|Hin]; [destruct Hnone; by right|].
    apply in_app_or in Hin as [Hin|Hin];
      [destruct Hin as [Hin|[]]; discriminate Hin|].
    apply in_app_or in Hin as [Hin|Hin]; [|by destruct (Htail _ _ Hin)].
    right. destruct (Hcalls _ _ Hin) as [-> Hmsg]. split; [exact Hmsg|].
    split; [reflexivity|].
    destruct Hpass as (addr & Haddr & Hall).
    by exists channel, connectionID, addr. }
  destruct (executeTx_msgs k cc 0 msgs
              {| sdk.Data := replicate (length msgs) None |} wc)
    as [[txMsgData|looperr|reason] w2] eqn:Hloop.
  - rewrite (executeTx_tail_commits k ctx cc _ msgs txMsgData w1 wc w2
               Hcache Hloop).
    cbn [snd trace]. apply Hbranch.
    intros c m [Hin|[Hin|[Hin|[]]]]; discriminate Hin.
  - rewrite (executeTx_tail_fails k ctx cc _ msgs looperr w1 wc w2 Hcache Hloop).
    cbn [snd]. intros Hin. apply (Hbranch []); [by intros c m []|].
    by rewrite app_nil_r.
  - rewrite bind_run, Hcache. cbv beta iota. rewrite bind_run, Hloop.
    cbn [snd]. intros Hin. apply (Hbranch []); [by intros c m []|].
    by rewrite app_nil_r.
Qed.

Lemma executeTx_runs_authenticated_only_witness :
  In (CallHandler {| sdk.MultiStoreRef := 1; sdk.EventManagerRef := 1 |} Sample.send)
     (trace (snd (executeTx Sample.host Sample.ctx "icacontroller-alice" "icahost"
                    "channel-0" [Sample.send; Sample.invalid] Sample.world)))
  /\ forall m, In m [Sample.send; Sample.invalid] ->
       types.ContainsMsgType [Sample.MsgSend; Sample.MsgDelegate] m = true
       /\ exists signers,
            sdk.GetSigners m = inr signers
            /\ forall signer, In signer signers ->
                 sdk.AccAddress_String signer = Sample.ica.
Proof.
  assert (Hin : In (CallHandler {| sdk.MultiStoreRef := 1; sdk.EventManagerRef := 1 |}
                      Sample.send)
                   (trace (snd (executeTx Sample.host Sample.ctx "icacontroller-alice"
                                  "icahost" "channel-0" [Sample.send; Sample.invalid]
                                  Sample.world)))).
  { vm_compute. repeat first [left; reflexivity | right]. }
  split; [exact Hin|].
  destruct (executeTx_runs_authenticated_only Sample.host Sample.ctx
              "icacontroller-alice" "icahost" "channel-0"
              [Sample.send; Sample.invalid] Sample.world _ _ Hin)
    as [[]|(_ & _ & channel & connectionID & addr & Hchannel & Hhop & Haddr & Hall)].
  injection Hchannel as <-. injection Hhop as <-. injection Haddr as <-.
  exact Hall.
Defined.
